(** * create_christmas_linkedin_post.py: a shallow embedding

    The script is a linear pipeline
      Locator -> Text Eraser -> Logo Compositor -> Caption Renderer
              -> Canvas Formatter -> save.
    Every function of the script is transcribed below under its own name.

    Conventions of the embedding.
    - Python [int] is [Z]; [//] is [Z.div] (floor); [int(x)] on a float is
      truncation toward zero ([Py.int]).
    - Python [float] is IEEE binary64 (module [Binary64], over the
      Standard Library's [SpecFloat]) where the integer part of a result
      depends on rounding: the logo height and the gradient colours.
      The products of an image size by 0.12, 0.15 and 0.045 and the
      pixel means have the same integer part in double precision as over
      the rationals for the sizes Pillow handles, and are computed over
      [Q].  The Canvas Formatter's scale is kept in exact rationals, the
      arithmetic its cover property is stated for; the size and mode of
      its output do not depend on it, and [resized_size_binary64] gives
      the sizes double precision yields.
    - Images are RGB pixel grids, as [main] hands them to every stage
      (it converts the base image to RGB right after loading it).
    - [str] is [string] (a byte string; [lower] folds ASCII letters).
    - The dictionary [files] is a [gmap string string].
    - Exceptions are values of the error monad [result].
    - The operating system (directory tree, file sizes, existence, image
      headers, pixel decoding, writing the output) and the Pillow
      primitives whose pixel output the script never inspects
      (resampling, alpha blending, glyph rasterising, font files) are
      interfaces: [OS] and [Pillow].  Pillow's text measurement and text
      drawing are taken as returning. *)

From Stdlib Require Import ZArith QArith Qround String Ascii List Lia Bool.
From Stdlib Require Import Floats.SpecFloat.
From stdpp Require Import gmap strings list pretty.

Set Warnings "-register-all".

Local Open Scope string_scope.
Local Open Scope list_scope.
Local Open Scope Z_scope.

(** ** Python built-ins *)

Module Py.

Inductive exn :=
| ValueError (msg : string)
| ZeroDivisionError (msg : string)
| OSError (msg : string).

Definition str_of_exn (e : exn) : string :=
  match e with
  | ValueError m => m
  | ZeroDivisionError m => m
  | OSError m => m
  end.

(** [result A]: a computation that returns or raises. *)
Inductive result (A : Type) :=
| Ok (a : A)
| Raise (e : exn).
Arguments Ok {A} a.
Arguments Raise {A} e.

#[global] Instance result_ret : MRet result := fun A a => Ok a.
#[global] Instance result_bind : MBind result := fun A B k m =>
  match m with
  | Ok a => k a
  | Raise e => Raise e
  end.

(** [str.lower] on ASCII. *)
Definition lower_ascii (c : ascii) : ascii :=
  let n := nat_of_ascii c in
  if ((65 <=? n) && (n <=? 90))%nat then ascii_of_nat (n + 32) else c.

Fixpoint lower (s : string) : string :=
  match s with
  | EmptyString => EmptyString
  | String c r => String (lower_ascii c) (lower r)
  end.

(** [s.startswith(p)] *)
Definition startswith (s p : string) : bool := String.prefix p s.

(** [s.endswith(p)] *)
Definition endswith (s p : string) : bool :=
  let n := String.length s in
  let k := String.length p in
  ((k <=? n)%nat && String.eqb (String.substring (n - k) k s) p).

(** [needle in hay] *)
Fixpoint contains (needle hay : string) : bool :=
  String.prefix needle hay
  || match hay with
     | EmptyString => false
     | String _ r => contains needle r
     end.

(** [a / b] on integers: true division. *)
Definition truediv (a b : Z) : result Q :=
  if b =? 0 then Raise (ZeroDivisionError "division by zero")
  else Ok (inject_Z a / inject_Z b)%Q.

(** [int(x)] for a float [x]: truncation toward zero. *)
Definition int (x : Q) : Z := Z.quot (Qnum x) (Z.pos (Qden x)).

(** [max(a, b)]: [b] when [b > a], else [a]. *)
Definition max (a b : Q) : Q := if Qle_bool b a then a else b.

(** Normalised start of a slice [a[start:]] of a sequence of length
    [len]. *)
Definition slice_index (i len : Z) : Z :=
  if i <? 0 then Z.max 0 (i + len) else Z.min i len.

(** [range(a, b)] *)
Definition range (a b : Z) : list Z :=
  map (fun k => a + Z.of_nat k) (seq 0 (Z.to_nat (b - a))).

(** [range(a, b, step)] for a positive step, by fuel [b - a]. *)
Fixpoint range_step_go (fuel : nat) (a b step : Z) : list Z :=
  match fuel with
  | O => []
  | S f => if a <? b then a :: range_step_go f (a + step) b step else []
  end.
Definition range_step (a b step : Z) : list Z :=
  range_step_go (Z.to_nat (b - a)) a b step.

(** Order of [(int, str)] tuples, as [list.sort] compares them. *)
Definition tuple_ltb (a b : Z * string) : bool :=
  (a.1 <? b.1) || ((a.1 =? b.1) && String.ltb a.2 b.2).

(** [l.sort(reverse=True)]: descending, equal keys keep their order. *)
Fixpoint insert_desc (x : Z * string) (l : list (Z * string)) :=
  match l with
  | [] => [x]
  | y :: r => if tuple_ltb x y then y :: insert_desc x r else x :: l
  end.

Fixpoint sort_reverse (l : list (Z * string)) : list (Z * string) :=
  match l with
  | [] => []
  | x :: r => insert_desc x (sort_reverse r)
  end.

End Py.

(** ** IEEE binary64, the arithmetic of Python's [float] *)

Module Binary64.

Definition prec : Z := 53.
Definition emax : Z := 1024.

(** [float(n)] *)
Definition of_int (n : Z) : spec_float := binary_normalize prec emax n 0 false.

Definition add : spec_float -> spec_float -> spec_float := SFadd prec emax.
Definition sub : spec_float -> spec_float -> spec_float := SFsub prec emax.
Definition mul : spec_float -> spec_float -> spec_float := SFmul prec emax.
Definition div : spec_float -> spec_float -> spec_float := SFdiv prec emax.

(** [max(a, b)] *)
Definition max (a b : spec_float) : spec_float := if SFltb a b then b else a.

(** [int(x)] for a finite [x]: truncation toward zero.  The script
    applies it to products of image sizes and 8-bit colours only. *)
Definition int (x : spec_float) : Z :=
  match x with
  | S754_finite s m e =>
      let v := if 0 <=? e then Z.pos m * 2 ^ e else Z.pos m / 2 ^ (- e) in
      if s then - v else v
  | _ => 0
  end.

End Binary64.

(** ** The operating system, as the script sees it *)

(** A directory: its file names and its sub-directories, in the order
    [os.walk] reports them. *)
Inductive dirtree :=
| Dir (filenames : list string) (subdirs : list (string * dirtree)).

Definition os_path_join (root name : string) : string :=
  root +:+ "/" +:+ name.

(** [os.walk(root)] top-down, where the consumer prunes [dirs] in place
    with [keep] before the walk descends. *)
Fixpoint os_walk (keep : string -> bool) (root : string) (t : dirtree)
  : list (string * list string) :=
  match t with
  | Dir filenames subdirs =>
      (root, filenames) ::
      (fix descend (ds : list (string * dirtree)) :=
         match ds with
         | [] => []
         | (d, sub) :: rest =>
             (if keep d then os_walk keep (os_path_join root d) sub else [])
             ++ descend rest
         end) subdirs
  end.

(** ** Images *)

Definition color := (Z * Z * Z)%type.

(** An image: mode, size, and pixel data addressed as [getpixel x y], the
    RGB value the pixel has or gets by [convert('RGB')]; [alpha] is the
    transparency the pixel has or gets by [convert('RGBA')].  Values
    outside [0 <= x < width], [0 <= y < height] carry no meaning.  Pillow
    keeps sizes in C ints, far below 2^53, so a size converts to a double
    without rounding. *)
Record Image := mkImage {
  mode : string;
  width : Z;
  height : Z;
  getpixel : Z -> Z -> color;
  alpha : Z -> Z -> Z
}.

Definition size (img : Image) : Z * Z := (width img, height img).

(** [image_open] is [Image.open]: it reads the header (mode and size)
    and raises on a file that is no image.  Pillow reads the pixel data
    later, when they are first needed; [decode_error] tells whether that
    fails.  The pixel fields of an opened image are the data as they
    decode when they do. *)
Record OS := mkOS {
  workspace : dirtree;                     (* the tree under /workspace *)
  getsize : string -> option Z;            (* None: os.path.getsize raises *)
  path_exists : string -> bool;            (* os.path.exists *)
  image_open : string -> Py.result Image;  (* Image.open *)
  decode_error : string -> option Py.exn;  (* raised when the data are read *)
  save_error : string -> option Py.exn     (* raised by Image.save to a path *)
}.

(** [img.load()] for the image opened from [path]. *)
Definition load (os : OS) (path : string) : Py.result unit :=
  match decode_error os path with
  | Some e => Py.Raise e
  | None => Py.Ok tt
  end.

(** [a / b] on integers, in double precision. *)
Definition float_truediv (a b : Z) : Py.result spec_float :=
  if b =? 0 then Py.Raise (Py.ZeroDivisionError "division by zero")
  else Py.Ok (Binary64.div (Binary64.of_int a) (Binary64.of_int b)).

(** ** File Locator *)

Definition image_extensions : list string :=
  [".jpg"; ".jpeg"; ".png"; ".gif"; ".webp";
   ".JPG"; ".JPEG"; ".PNG"; ".GIF"; ".WEBP"].

Definition is_image_name (filename : string) : bool :=
  existsb (fun ext => Py.endswith (Py.lower filename) (Py.lower ext))
          image_extensions.

Definition is_christmas_name (filename_lower : string) : bool :=
  Py.contains "christmas" filename_lower
  && negb (Py.contains "logo" filename_lower).

Definition is_logo_name (filename_lower : string) : bool :=
  Py.contains "logo" filename_lower || Py.contains "nimex" filename_lower.

(** State of the scanning loop: the dictionary [files] and the list
    [all_images]. *)
Definition scan_state : Type :=
  (gmap string string * list (string * string))%type.

(** Body of [for filename in filenames] (lines 27-43). *)
Definition visit_file (root : string) (st : scan_state) (filename : string)
  : scan_state :=
  let '(files, all_images) := st in
  if Py.startswith filename "." || Py.endswith filename ".py"
     || Py.endswith filename ".html"
  then st
  else if is_image_name filename then
    let filepath := os_path_join root filename in
    let filename_lower := Py.lower filename in
    let all_images := all_images ++ [(filepath, filename_lower)] in
    if is_christmas_name filename_lower then
      match files !! "christmas" with
      | None => (<["christmas" := filepath]> files, all_images)
      | Some _ => (files, all_images)
      end
    else if is_logo_name filename_lower
            && bool_decide (files !! "logo" = None)
    then (<["logo" := filepath]> files, all_images)
    else (files, all_images)
  else st.

Definition visit_dir (st : scan_state) (entry : string * list string)
  : scan_state :=
  fold_left (visit_file entry.1) entry.2 st.

Definition hidden (d : string) : bool := Py.startswith d ".".

(** The walk of lines 23-43. *)
Definition scan (os : OS) : scan_state :=
  fold_left visit_dir
            (os_walk (fun d => negb (hidden d)) "/workspace" (workspace os))
            (∅, []).

(** Lines 50-56: sizes of the candidates whose size can be read. *)
Definition image_sizes (os : OS) (all_images : list (string * string))
  : list (Z * string) :=
  flat_map (fun '(filepath, _) =>
              match getsize os filepath with
              | Some sz => [(sz, filepath)]
              | None => []
              end) all_images.

(** Lines 63-72: the first candidate other than the base image whose
    size is below 5 MiB. *)
Fixpoint pick_logo (os : OS) (christmas : option string)
         (all_images : list (string * string)) : option string :=
  match all_images with
  | [] => None
  | (filepath, _) :: rest =>
      if bool_decide (Some filepath ≠ christmas) then
        match getsize os filepath with
        | Some sz =>
            if sz <? 5 * 1024 * 1024 then Some filepath
            else pick_logo os christmas rest
        | None => pick_logo os christmas rest
        end
      else pick_logo os christmas rest
  end.

(** Lines 46-72. *)
Definition assign_roles (os : OS) (st : scan_state) : gmap string string :=
  let '(files, all_images) := st in
  match all_images with
  | [] => files
  | _ :: _ =>
      let files :=
        match files !! "christmas" with
        | None =>
            match Py.sort_reverse (image_sizes os all_images) with
            | (_, filepath) :: _ => <["christmas" := filepath]> files
            | [] => files
            end
        | Some _ => files
        end in
      match files !! "logo" with
      | None =>
          match pick_logo os (files !! "christmas") all_images with
          | Some filepath => <["logo" := filepath]> files
          | None => files
          end
      | Some _ => files
      end
  end.

Definition find_image_files (os : OS) : gmap string string :=
  assign_roles os (scan os).

(** ** Pillow and numpy primitives *)

Record Font := mkFont {
  font_file : option string;   (* None: ImageFont.load_default() *)
  font_size : Z
}.

(** The parts of Pillow whose pixel output the script never inspects. *)
Class Pillow := {
  (* bands of Image.resize(size, LANCZOS) *)
  lanczos : Image -> Z -> Z -> (Z -> Z -> color) * (Z -> Z -> Z);
  (* one pixel of a masked paste: source over destination by mask value *)
  blend : color -> color -> Z -> color;
  (* ImageFont.truetype(path, size) returns a font *)
  truetype_loads : string -> Z -> bool;
  (* ImageDraw.textbbox((0, 0), text, font=font) *)
  textbbox : string -> Font -> Z * Z * Z * Z;
  (* pixels after ImageDraw.text(xy, text, font=font, fill=fill) *)
  draw_text : Image -> Z * Z -> string -> Font -> color -> Z -> Z -> color
}.

Definition in_bounds (img : Image) (x y : Z) : bool :=
  (0 <=? x) && (x <? width img) && (0 <=? y) && (y <? height img).

(** [img_array[r0:r1, c0:c1].reshape(-1, 3)] with normalised bounds: the
    pixels of the window, row by row. *)
Definition window (img_array : Image) (r0 r1 c0 c1 : Z) : list color :=
  flat_map (fun y => map (fun x => getpixel img_array x y) (Py.range c0 c1))
           (Py.range r0 r1).

Definition sum_band (band : color -> Z) (pixels : list color) : Z :=
  fold_right Z.add 0 (map band pixels).

(** [tuple(map(int, np.mean(pixels, axis=0)))]; the mean of no pixels is
    NaN, which [int] rejects. *)
Definition mean_color (pixels : list color) : Py.result color :=
  match pixels with
  | [] => Py.Raise (Py.ValueError "cannot convert float NaN to integer")
  | _ :: _ =>
      let n := inject_Z (Z.of_nat (length pixels)) in
      let mean band := Py.int (inject_Z (sum_band band pixels) / n)%Q in
      Py.Ok (mean (fun c => c.1.1), mean (fun c => c.1.2), mean (fun c => c.2))
  end.

(** [ImageDraw.Draw(img).rectangle([(x0, y0), (x1, y1)], fill=fill)]:
    both corners are inside the painted box. *)
Definition draw_rectangle (img : Image) (x0 y0 x1 y1 : Z) (fill : color)
  : Image :=
  {| mode := mode img; width := width img; height := height img;
     getpixel := fun x y =>
       if in_bounds img x y
          && (x0 <=? x) && (x <=? x1) && (y0 <=? y) && (y <=? y1)
       then fill else getpixel img x y;
     alpha := alpha img |}.

(** [img.convert(m)] *)
Definition convert (img : Image) (m : string) : Image :=
  {| mode := m; width := width img; height := height img;
     getpixel := getpixel img; alpha := alpha img |}.

(** [Image.new('RGB', (w, h), color=fill)] *)
Definition Image_new (m : string) (w h : Z) (fill : color) : Image :=
  {| mode := m; width := w; height := h;
     getpixel := fun _ _ => fill; alpha := fun _ _ => 255 |}.

(** [img.resize((w, h), Image.Resampling.LANCZOS)]: a copy when the size
    is unchanged; Pillow rejects a target with a dimension below 1. *)
Definition resize `{Pillow} (img : Image) (w h : Z) : Py.result Image :=
  if (w =? width img) && (h =? height img) then Py.Ok img
  else if (w <? 1) || (h <? 1)
  then Py.Raise (Py.ValueError "height and width must be > 0")
  else
    let bands := lanczos img w h in
    Py.Ok {| mode := mode img; width := w; height := h;
             getpixel := bands.1; alpha := bands.2 |}.

(** [base.paste(im, (x, y), mask)]; without a mask the box is copied. *)
Definition paste `{Pillow} (base im : Image) (x y : Z) (mask : option Image)
  : Image :=
  {| mode := mode base; width := width base; height := height base;
     getpixel := fun u v =>
       if in_bounds base u v && in_bounds im (u - x) (v - y) then
         match mask with
         | Some m => blend (getpixel im (u - x) (v - y)) (getpixel base u v)
                           (alpha m (u - x) (v - y))
         | None => getpixel im (u - x) (v - y)
         end
       else getpixel base u v;
     alpha := alpha base |}.

(** ** Text Eraser *)

(** Lines 138-143: the colour of strip [i], in double precision. *)
Definition blended_color (avg_color blend_color : color)
           (i text_area_height : Z) : color :=
  let alpha :=
    Binary64.div (Binary64.of_int i) (Binary64.of_int text_area_height) in
  let band a b :=
    Binary64.int
      (Binary64.add
         (Binary64.mul (Binary64.of_int a)
                       (Binary64.sub (Binary64.of_int 1) alpha))
         (Binary64.mul (Binary64.of_int b) alpha)) in
  (band avg_color.1.1 blend_color.1.1,
   band avg_color.1.2 blend_color.1.2,
   band avg_color.2 blend_color.2).

(** Lines 144-146: one iteration of the gradient loop. *)
Definition paint_strip (avg_color blend_color : color)
           (text_area_height text_area_y_start : Z) (img : Image) (i : Z)
  : Image :=
  let y_pos := text_area_y_start + i in
  if y_pos <? height img then
    draw_rectangle img 0 y_pos (width img) (y_pos + 1)
                   (blended_color avg_color blend_color i text_area_height)
  else img.

(** Lines 128-133. *)
Definition blend_samples (img_array : Image) (text_area_y_start : Z)
  : list color :=
  let width := width img_array in
  let height := height img_array in
  flat_map (fun x_offset =>
    flat_map (fun y_offset =>
      let y_pos := text_area_y_start + y_offset in
      if (0 <=? y_pos) && (y_pos <? height)
         && (0 <=? x_offset) && (x_offset <? width)
      then [getpixel img_array x_offset y_pos] else [])
      (Py.range_step (-20) 0 5))
    [width / 4; width / 2; 3 * width / 4].

(** Lines 89-90. *)
Definition text_area_height_of (height : Z) : Z :=
  Py.int (inject_Z height * 0.12)%Q.

Definition text_area_y_start_of (height : Z) : Z :=
  height - text_area_height_of height - 30.

(** Lines 94-104. *)
Definition sample_regions (img_array : Image) : list (list color) :=
  let width := width img_array in
  let height := height img_array in
  let text_area_y_start := text_area_y_start_of height in
  let rows a := (Py.slice_index a height,
                 Py.slice_index text_area_y_start height) in
  (if 50 <? text_area_y_start then
     let r := rows (Z.max 0 (text_area_y_start - 100)) in
     [window img_array r.1 r.2 0 width]
   else [])
  ++
  (let side_width := width / 4 in
   if 0 <? text_area_y_start then
     let r := rows (Z.max 0 (text_area_y_start - 50)) in
     [window img_array r.1 r.2 0 (Py.slice_index side_width width);
      window img_array r.1 r.2 (Py.slice_index (- side_width) width) width]
   else []).

(** Lines 107-112. *)
Definition avg_color_of (img_array : Image) : Py.result color :=
  match sample_regions img_array with
  | [] => mean_color (window img_array 0
                        (Py.slice_index (height img_array / 4)
                                        (height img_array))
                        0 (width img_array))
  | regions => mean_color (concat regions)
  end.

Definition remove_text_from_image (img : Image) (text_to_remove : string)
  : Py.result Image :=
  let img_array := img in      (* np.array(img): the pixels before drawing *)
  let height := height img_array in
  let width := width img_array in
  let text_area_height := text_area_height_of height in
  let text_area_y_start := text_area_y_start_of height in
  avg_color ← avg_color_of img_array;
  let img := draw_rectangle img 0 text_area_y_start width height avg_color in
  if 20 <? text_area_y_start then
    match blend_samples img_array text_area_y_start with
    | [] => Py.Ok img
    | samples =>
        blend_color ← mean_color samples;
        Py.Ok (fold_left (paint_strip avg_color blend_color
                                      text_area_height text_area_y_start)
                         (Py.range 0 text_area_height) img)
    end
  else Py.Ok img.

(** ** Logo Compositor *)

Definition bbox : Type := (Z * Z * Z * Z)%type.

(** The [try] block of lines 152-180. *)
Definition add_logo_try `{Pillow} (os : OS) (base_img : Image)
           (logo_path position : string) : Py.result (Image * bbox) :=
  logo ← image_open os logo_path;
  logo ← (if bool_decide (mode logo ≠ "RGBA")
          then _ ← load os logo_path; Py.Ok (convert logo "RGBA")
          else Py.Ok logo);
  let '(base_width, base_height) := size base_img in
  let logo_width := Py.int (inject_Z base_width * 0.15)%Q in
  ratio ← float_truediv (height logo) (width logo);
  let logo_height :=
    Binary64.int (Binary64.mul (Binary64.of_int logo_width) ratio) in
  _ ← load os logo_path;         (* resize reads the data first *)
  logo ← resize logo logo_width logo_height;
  let '(x, y) :=
    if String.eqb position "bottom_left" then
      (40, base_height - logo_height - 40)
    else if String.eqb position "bottom_right" then
      (base_width - logo_width - 40, base_height - logo_height - 40)
    else if String.eqb position "top_left" then
      (40, 40)
    else
      (base_width - logo_width - 40, 40) in
  Py.Ok (paste base_img logo x y (Some logo),
         (x, y, logo_width, logo_height)).

(** Returns the image, the logo box, and the lines printed. *)
Definition add_logo_to_image `{Pillow} (os : OS) (base_img : Image)
           (logo_path position : string)
  : Image * option bbox * list string :=
  match add_logo_try os base_img logo_path position with
  | Py.Ok (img, box) => (img, Some box, [])
  | Py.Raise e => (base_img, None, ["Error adding logo: " +:+ Py.str_of_exn e])
  end.

(** ** Caption Renderer *)

Definition dejavu_bold : string :=
  "/usr/share/fonts/truetype/dejavu/DejaVuSans-Bold.ttf".
Definition liberation_bold : string :=
  "/usr/share/fonts/truetype/liberation/LiberationSans-Bold.ttf".

(** Lines 191-202. *)
Definition load_font `{Pillow} (height : Z) : Font :=
  let font_size := Py.int (inject_Z height * 0.045)%Q in
  if truetype_loads dejavu_bold font_size then
    {| font_file := Some dejavu_bold; font_size := font_size |}
  else if truetype_loads liberation_bold font_size then
    {| font_file := Some liberation_bold; font_size := font_size |}
  else {| font_file := None; font_size := 24 |}.

(** One call [draw.text(xy, text, font=font, fill=fill)]. *)
Record text_call := mkCall { at_xy : Z * Z; fill : color }.

Definition text_color : color := (255, 255, 255).
Definition outline_color : color := (0, 0, 0).

(** Lines 220-221: [bbox[2] - bbox[0]] of the measured caption. *)
Definition text_width_of `{Pillow} (img : Image) (text : string) : Z :=
  let bbox := textbbox text (load_font (height img)) in
  bbox.1.2 - bbox.1.1.1.

(** Lines 204-241: the calls of [draw.text], in program order. *)
Definition text_calls `{Pillow} (img : Image) (text position : string)
           (logo_info : option bbox) : list text_call :=
  let '(width, height) := size img in
  let '(text_x, text_y) :=
    match String.eqb position "below_logo", logo_info with
    | true, Some (x, y, logo_w, logo_h) => (x, y + logo_h + 30)
    | _, _ => (width / 2, height - 120)
    end in
  let text_width := text_width_of img text in
  let text_x :=
    if String.eqb position "center_bottom" then (width - text_width) / 2
    else if String.eqb position "below_logo" && bool_decide (is_Some logo_info)
    then (if width - 40 <? text_x + text_width
          then (width - text_width) / 2 else text_x)
    else text_x in
  let outline_width := 3 in
  flat_map (fun adj =>
    flat_map (fun adj2 =>
      if negb (adj =? 0) || negb (adj2 =? 0)
      then [mkCall (text_x + adj, text_y + adj2) outline_color] else [])
      (Py.range (- outline_width) (outline_width + 1)))
    (Py.range (- outline_width) (outline_width + 1))
  ++ [mkCall (text_x, text_y) text_color].

Definition apply_text_call `{Pillow} (text : string) (font : Font)
           (img : Image) (c : text_call) : Image :=
  {| mode := mode img; width := width img; height := height img;
     getpixel := draw_text img (at_xy c) text font (fill c);
     alpha := alpha img |}.

(** No statement of lines 185-243 raises by itself; the function returns
    the image after the last call. *)
Definition add_text_to_image `{Pillow} (img : Image) (text position : string)
           (logo_info : option bbox) : Py.result Image :=
  Py.Ok (fold_left (apply_text_call text (load_font (height img)))
                   (text_calls img text position logo_info) img).

(** Where the caption itself (the last, white, call) is drawn. *)
Definition caption_xy `{Pillow} (img : Image) (text position : string)
           (logo_info : option bbox) : option (Z * Z) :=
  at_xy <$> last (text_calls img text position logo_info).

(** ** Canvas Formatter *)

Definition linkedin_width : Z := 1200.
Definition linkedin_height : Z := 627.

(** Lines 251-260: the size the image is resized to. *)
Definition resized_size (img : Image) : Py.result (Z * Z) :=
  let '(img_width, img_height) := size img in
  scale_width ← Py.truediv linkedin_width img_width;
  scale_height ← Py.truediv linkedin_height img_height;
  let scale := Py.max scale_width scale_height in
  let new_width := Py.int (inject_Z img_width * scale)%Q in
  let new_height := Py.int (inject_Z img_height * scale)%Q in
  Py.Ok (new_width, new_height).

Definition format_as_linkedin_post `{Pillow} (img : Image)
  : Py.result Image :=
  '(new_width, new_height) ← resized_size img;
  img_resized ← resize img new_width new_height;
  let linkedin_img :=
    Image_new "RGB" linkedin_width linkedin_height (0, 0, 0) in
  let paste_x := (linkedin_width - new_width) / 2 in
  let paste_y := (linkedin_height - new_height) / 2 in
  Py.Ok (paste linkedin_img img_resized paste_x paste_y None).

(** Lines 251-260 in double precision. *)
Definition resized_size_binary64 (img_width img_height : Z) : Z * Z :=
  let scale_width :=
    Binary64.div (Binary64.of_int linkedin_width) (Binary64.of_int img_width) in
  let scale_height :=
    Binary64.div (Binary64.of_int linkedin_height) (Binary64.of_int img_height) in
  let scale := Binary64.max scale_width scale_height in
  (Binary64.int (Binary64.mul (Binary64.of_int img_width) scale),
   Binary64.int (Binary64.mul (Binary64.of_int img_height) scale)).

(** ** main *)

Record Args := mkArgs {
  christmas_image : option string;
  logo : option string;
  output : string
}.

Inductive outcome :=
| Exit (code : Z)                       (* sys.exit(code) *)
| Uncaught (e : Py.exn)                 (* traceback *)
| Saved (path : string) (img : Image)   (* linkedin_post.save(path, 'PNG') *)
        (logo_info : option bbox).      (* the local [logo_info] at that point *)

(** What a run saved: the path, the size of the post, the logo box. *)
Definition saved_summary (o : outcome)
  : option (string * (Z * Z) * option bbox) :=
  match o with
  | Saved path img logo_info => Some (path, size img, logo_info)
  | _ => None
  end.

(** Truth value of an optional string ([None] and [''] are false). *)
Definition truthy (s : option string) : bool :=
  match s with
  | Some s => negb (String.eqb s EmptyString)
  | None => false
  end.

Definition usage : list string :=
  ["ERROR: Christmas image not found!";
   "Please ensure a Christmas image file is in the workspace.";
   "Looking for files with 'christmas' in the name or any image file.";
   "
Usage:";
   "  python3 create_christmas_linkedin_post.py";
   "  python3 create_christmas_linkedin_post.py --christmas-image path/to/image.jpg --logo path/to/logo.png"].

Definition message : string :=
  "May this christmas bring prosperity, love and success to your life".

Definition str_of_size (sz : Z * Z) : string :=
  "(" +:+ pretty sz.1 +:+ ", " +:+ pretty sz.2 +:+ ")".

(** Lines 329-352.  [pending] is the decoding error still ahead when the
    base image was opened in mode RGB and its data have not been read:
    [np.array(img)] (line 83) reads them, outside every [try]. *)
Definition compose `{Pillow} (os : OS) (args : Args)
           (image_files : gmap string string) (christmas_img : Image)
           (pending : option Py.exn)
  : list string * outcome :=
  let out1 := ["Removing 'and happy newyear' text..."] in
  match pending with
  | Some e => (out1, Uncaught e)
  | None =>
  match remove_text_from_image christmas_img "and happy newyear" with
  | Py.Raise e => (out1, Uncaught e)
  | Py.Ok christmas_img =>
      let '(christmas_img, logo_info, out2) :=
        if truthy (image_files !! "logo") then
          let r := add_logo_to_image os christmas_img
                     (default EmptyString (image_files !! "logo"))
                     "bottom_left" in
          (r.1.1, r.1.2, "Adding logo..." :: r.2)
        else (christmas_img, None, []) in
      let out3 := ["Adding message: '" +:+ message +:+ "'"] in
      match add_text_to_image christmas_img message
              (if bool_decide (is_Some logo_info)
               then "below_logo" else "center_bottom")
              logo_info with
      | Py.Raise e => (out1 ++ out2 ++ out3, Uncaught e)
      | Py.Ok christmas_img =>
      let out4 := ["Formatting as LinkedIn post (1200x627px)..."] in
      match format_as_linkedin_post christmas_img with
      | Py.Raise e => (out1 ++ out2 ++ out3 ++ out4, Uncaught e)
      | Py.Ok linkedin_post =>
          let output_path := output args in
          match save_error os output_path with
          | Some e => (out1 ++ out2 ++ out3 ++ out4, Uncaught e)
          | None =>
              (out1 ++ out2 ++ out3 ++ out4 ++
               ["✓ Saved LinkedIn post to: " +:+ output_path;
                "  Dimensions: " +:+ pretty (width linkedin_post) +:+ "x"
                  +:+ pretty (height linkedin_post) +:+ "px"],
               Saved output_path linkedin_post logo_info)
          end
      end
      end
  end
  end.

(** The [try] block of lines 319-324: the base image in mode RGB, and
    the decoding error still ahead.  [convert] reads the data, so a file
    in another mode is decoded here; a file already in mode RGB is not. *)
Definition open_base_image (os : OS) (path : string)
  : Py.result (Image * option Py.exn) :=
  christmas_img ← image_open os path;
  if bool_decide (mode christmas_img ≠ "RGB")
  then _ ← load os path; Py.Ok (convert christmas_img "RGB", None)
  else Py.Ok (christmas_img, decode_error os path).

(** Lines 282-327; returns the printed lines and how the run ended. *)
Definition main `{Pillow} (os : OS) (args : Args) : list string * outcome :=
  let out0 := ["Searching for image files..."] in
  let image_files := find_image_files os in
  let step1 : list string * option (gmap string string) :=
    match christmas_image args with
    | Some p =>
        if truthy (Some p) then
          if path_exists os p
          then ([], Some (<["christmas" := p]> image_files))
          else (["ERROR: Christmas image not found at: " +:+ p], None)
        else ([], Some image_files)
    | None => ([], Some image_files)
    end in
  match step1 with
  | (out1, None) => (out0 ++ out1, Exit 1)
  | (out1, Some image_files) =>
      let '(out2, image_files) :=
        match logo args with
        | Some p =>
            if truthy (Some p) then
              if path_exists os p
              then ([], <["logo" := p]> image_files)
              else (["WARNING: Logo not found at: " +:+ p;
                     "Continuing without logo..."], image_files)
            else ([], image_files)
        | None => ([], image_files)
        end in
      if negb (truthy (image_files !! "christmas")) then
        (out0 ++ out1 ++ out2 ++ usage, Exit 1)
      else
        let out3 :=
          if negb (truthy (image_files !! "logo")) then
            ["WARNING: Logo file not found!";
             "Looking for files with 'logo' or 'nimex' in the name.";
             "Continuing without logo..."]
          else [] in
        let out4 :=
          ["Found Christmas image: "
             +:+ default "None" (image_files !! "christmas")]
          ++ (if truthy (image_files !! "logo")
              then ["Found logo: " +:+ default "None" (image_files !! "logo")]
              else []) in
        let pre := out0 ++ out1 ++ out2 ++ out3 ++ out4 in
        match open_base_image os
                (default EmptyString (image_files !! "christmas")) with
        | Py.Raise e =>
            (pre ++ ["Error loading Christmas image: " +:+ Py.str_of_exn e],
             Exit 1)
        | Py.Ok (christmas_img, pending) =>
            let r := compose os args image_files christmas_img pending in
            (pre ++ ["Loaded Christmas image: "
                       +:+ str_of_size (size christmas_img)] ++ r.1, r.2)
        end
  end.

(** ** Sample inputs

    A simple backend and a few small workspaces, to run the definitions
    on concrete data. *)

Module Demo.

(** Nearest-neighbour resampling, linear alpha blending, no font files
    installed, a fixed 6x11 cell per character drawn as a filled box. *)
#[local] Instance box_pillow : Pillow := {|
  lanczos img w h :=
    (fun x y => getpixel img (x * width img / w) (y * height img / h),
     fun x y => alpha img (x * width img / w) (y * height img / h));
  blend src dst m :=
    ((src.1.1 * m + dst.1.1 * (255 - m)) / 255,
     (src.1.2 * m + dst.1.2 * (255 - m)) / 255,
     (src.2 * m + dst.2 * (255 - m)) / 255);
  truetype_loads _ _ := false;
  textbbox text _ := (0, 0, 6 * Z.of_nat (String.length text), 11);
  draw_text img xy text _ fill x y :=
    if (xy.1 <=? x) && (x <? xy.1 + 6 * Z.of_nat (String.length text))
       && (xy.2 <=? y) && (y <? xy.2 + 11)
    then fill else getpixel img x y
|}.

Definition grey (v : Z) : color := (v, v, v).

(** A [w] x [h] RGB image whose rows above [split] are black and the
    others white. *)
Definition two_tone (w h split : Z) : Image :=
  {| mode := "RGB"; width := w; height := h;
     getpixel := fun _ y => if y <? split then grey 0 else grey 255;
     alpha := fun _ _ => 255 |}.

(** A flat RGBA image. *)
Definition flat_rgba (w h : Z) (c : color) : Image :=
  {| mode := "RGBA"; width := w; height := h;
     getpixel := fun _ _ => c; alpha := fun _ _ => 255 |}.

(** An operating system given by a tree and a table
    path |-> (byte size, image); every listed file decodes and every
    path can be written. *)
Definition table_os (t : dirtree) (tbl : list (string * (Z * Image))) : OS :=
  let find p := List.find (fun e => String.eqb e.1 p) tbl in
  {| workspace := t;
     getsize := fun p => (fun e => e.2.1) <$> find p;
     path_exists := fun p => bool_decide (is_Some (find p));
     image_open := fun p =>
       match find p with
       | Some e => Py.Ok e.2.2
       | None => Py.Raise (Py.OSError "No such file or directory")
       end;
     decode_error := fun _ => None;
     save_error := fun _ => None |}.

Definition photo : Image := two_tone 1200 627 300.
Definition small_photo : Image := two_tone 4 60 10.
Definition square_logo : Image := flat_rgba 400 400 (grey 200).
Definition strip_logo : Image := flat_rgba 400 1 (grey 200).

(** /workspace holds christmas.png and logo.png. *)
Definition branded_os : OS :=
  table_os (Dir ["christmas.png"; "logo.png"] [])
           [("/workspace/christmas.png", (900000, two_tone 200 100 50));
            ("/workspace/logo.png", (20000, flat_rgba 10 10 (grey 200)))].

(** /workspace holds a single file, Nimex.PNG. *)
Definition single_os : OS :=
  table_os (Dir ["Nimex.PNG"] [])
           [("/workspace/Nimex.PNG", (5000, square_logo))].

(** /workspace holds three plainly named images, some in folders. *)
Definition plain_os : OS :=
  table_os (Dir ["notes.html"; "a.PNG"; ".b.png"]
                [(".git", Dir ["x.png"] []);
                 ("sub", Dir ["big.jpg"; "c.gif"] [])])
           [("/workspace/a.PNG", (10, square_logo));
            ("/workspace/.b.png", (900, square_logo));
            ("/workspace/.git/x.png", (800, square_logo));
            ("/workspace/sub/big.jpg", (700, photo));
            ("/workspace/sub/c.gif", (30, square_logo))].

(** One openable logo, nothing in the workspace. *)
Definition logo_os (logo : Image) : OS :=
  table_os (Dir [] []) [("/logos/logo.png", (20000, logo))].

End Demo.

(** A file name the scan keeps (lines 29-32), and the entries one
    directory adds to [all_images]. *)
Definition is_candidate (filename : string) : bool :=
  negb (Py.startswith filename "." || Py.endswith filename ".py"
        || Py.endswith filename ".html")
  && is_image_name filename.

Definition candidates_in (entry : string * list string)
  : list (string * string) :=
  map (fun f => (os_path_join entry.1 f, Py.lower f))
      (List.filter is_candidate entry.2).



(** ** Vocabulary of the further Locator properties *)

(** Path of the first candidate whose lowercased name satisfies [p]. *)
Definition first_named (p : string -> bool)
           (all_images : list (string * string)) : option string :=
  fst <$> List.find (fun c => p c.2) all_images.

(** The name test of the [elif] of line 42, for a file that reaches it. *)
Definition is_logo_only_name (filename_lower : string) : bool :=
  negb (is_christmas_name filename_lower) && is_logo_name filename_lower.

(** What the dictionary holds while the scan runs. *)
Definition scan_invariant (st : scan_state) : Prop :=
  st.1 !! "christmas" = first_named is_christmas_name st.2
  /\ st.1 !! "logo" = first_named is_logo_only_name st.2
  /\ forall k, k <> "christmas" -> k <> "logo" -> st.1 !! k = None.

(** A tree without its hidden folders. *)
Fixpoint prune_hidden (t : dirtree) : dirtree :=
  match t with
  | Dir filenames subdirs =>
      Dir filenames
          ((fix prune_all (ds : list (string * dirtree)) :=
              match ds with
              | [] => []
              | (d, sub) :: rest =>
                  if hidden d then prune_all rest
                  else (d, prune_hidden sub) :: prune_all rest
              end) subdirs)
  end.

Definition with_workspace (os : OS) (t : dirtree) : OS :=
  {| workspace := t; getsize := getsize os; path_exists := path_exists os;
     image_open := image_open os; decode_error := decode_error os;
     save_error := save_error os |}.

(** ** Vocabulary of the pixel properties *)

(** An 8-bit RGB value. *)
Definition valid_color (c : color) : Prop :=
  0 <= c.1.1 <= 255 /\ 0 <= c.1.2 <= 255 /\ 0 <= c.2 <= 255.

(** ** More sample inputs *)

Module Samples.

(** Two images named like a Christmas image, one named like both, and a
    logo. *)
Definition festive_os : OS :=
  Demo.table_os
    (Dir ["b_christmas.jpg"; "Christmas_Logo.png"; "a_christmas.png"; "nimex.gif"] [])
    [("/workspace/b_christmas.jpg", (100, Demo.photo));
     ("/workspace/Christmas_Logo.png", (50, Demo.square_logo));
     ("/workspace/a_christmas.png", (9000, Demo.photo));
     ("/workspace/nimex.gif", (20, Demo.square_logo))].

(** Nothing the scan keeps. *)
Definition bare_os : OS :=
  Demo.table_os
    (Dir ["notes.html"; ".hidden.png"; "run.py"] [(".cache", Dir ["x.png"] [])])
    [("/workspace/.hidden.png", (10, Demo.square_logo));
     ("/workspace/.cache/x.png", (10, Demo.square_logo))].



(** The workspace of [Demo.branded_os], where nothing can be written. *)
Definition readonly_os : OS :=
  {| workspace := workspace Demo.branded_os;
     getsize := getsize Demo.branded_os;
     path_exists := path_exists Demo.branded_os;
     image_open := image_open Demo.branded_os;
     decode_error := fun _ => None;
     save_error := fun _ => Some (Py.OSError "No such file or directory") |}.


(** A folder with a dangling link among its images. *)
Definition dangling_os : OS :=
  Demo.table_os (Dir ["a.png"; "broken.png"; "b.jpg"] [])
                [("/workspace/a.png", (300, Demo.photo));
                 ("/workspace/b.jpg", (7000, Demo.photo))].

End Samples.

(** * Properties *)

(** Cases on the integer comparisons of a goal. *)
Ltac cases_on_comparisons :=
  repeat match goal with
         | |- context [Z.leb ?a ?b] => destruct (Z.leb_spec a b)
         | |- context [Z.ltb ?a ?b] => destruct (Z.ltb_spec a b)
         end.


(** ** Arithmetic of [int] on rationals *)

Lemma int_floor (q : Q) : (0 <= q)%Q -> Py.int q = Qfloor q.
Proof.
  intros Hq. unfold Py.int. destruct q as [n d]; simpl.
  apply Z.quot_div_nonneg; [|lia].
  unfold Qle in Hq; simpl in Hq. lia.
Qed.

Lemma int_inject (z : Z) : Py.int (inject_Z z) = z.
Proof. unfold Py.int; simpl. apply Z.quot_1_r. Qed.

Lemma int_ge (n : Z) (q : Q) :
  0 <= n -> (inject_Z n <= q)%Q -> n <= Py.int q.
Proof.
  intros Hn Hq.
  assert (Hq0 : (0 <= q)%Q).
  { eapply Qle_trans; [|exact Hq]. change 0%Q with (inject_Z 0).
    rewrite <- Zle_Qle. exact Hn. }
  rewrite (int_floor _ Hq0), <- (Qfloor_Z n).
  apply Qfloor_resp_le, Hq.
Qed.

Lemma max_ge_l (a b : Q) : (a <= Py.max a b)%Q.
Proof.
  unfold Py.max. destruct (Qle_bool b a) eqn:E; [apply Qle_refl|].
  destruct (Qlt_le_dec a b) as [H|H]; [apply Qlt_le_weak, H|].
  apply Qle_bool_iff in H. congruence.
Qed.

Lemma max_ge_r (a b : Q) : (b <= Py.max a b)%Q.
Proof.
  unfold Py.max. destruct (Qle_bool b a) eqn:E; [|apply Qle_refl].
  apply Qle_bool_iff, E.
Qed.

(** Scaling a positive length [n] by at least [target / n] reaches
    [target]. *)
Lemma scaled_length_ge (n target : Z) (scale : Q) :
  0 < n -> 0 <= target ->
  (inject_Z target / inject_Z n <= scale)%Q ->
  target <= Py.int (inject_Z n * scale)%Q.
Proof.
  intros Hn Ht Hs. apply int_ge; [exact Ht|].
  assert (Hn' : (0 < inject_Z n)%Q).
  { change 0%Q with (inject_Z 0). rewrite <- Zlt_Qlt. exact Hn. }
  assert (E : (inject_Z target == inject_Z n * (inject_Z target / inject_Z n))%Q).
  { field. intros H0. rewrite H0 in Hn'. exact (Qlt_irrefl _ Hn'). }
  rewrite E. apply Qmult_le_l; assumption.
Qed.

(** The size computed by lines 251-260 on a non-degenerate image. *)
Lemma resized_size_ok (img : Image) :
  0 < width img -> 0 < height img ->
  exists new_width new_height,
    resized_size img = Py.Ok (new_width, new_height)
    /\ linkedin_width <= new_width /\ linkedin_height <= new_height.
Proof.
  intros Hw Hh. unfold resized_size, size, Py.truediv.
  destruct (Z.eqb_spec (width img) 0) as [E|_]; [lia|].
  destruct (Z.eqb_spec (height img) 0) as [E|_]; [lia|].
  cbn. eexists _, _. split; [reflexivity|]. split.
  - apply scaled_length_ge; [exact Hw | unfold linkedin_width; lia | apply max_ge_l].
  - apply scaled_length_ge; [exact Hh | unfold linkedin_height; lia | apply max_ge_r].
Qed.

(** ** Canvas Formatter *)

(** C4. With exact rational arithmetic, the size the Canvas Formatter
    resizes a non-degenerate image to covers the canvas: the new width
    is at least 1200 and the new height at least 627. *)
Theorem resized_size_covers_canvas (img : Image) :
  0 < width img -> 0 < height img ->
  exists new_width new_height,
    resized_size img = Py.Ok (new_width, new_height)
    /\ new_width
       = Py.int (inject_Z (width img)
                 * Py.max (1200 / inject_Z (width img))
                          (627 / inject_Z (height img)))%Q
    /\ new_height
       = Py.int (inject_Z (height img)
                 * Py.max (1200 / inject_Z (width img))
                          (627 / inject_Z (height img)))%Q
    /\ 1200 <= new_width /\ 627 <= new_height.
Proof.
  intros Hw Hh.
  destruct (resized_size_ok img Hw Hh) as (nw & nh & E & Hnw & Hnh).
  exists nw, nh. split; [exact E|].
  unfold resized_size, size, Py.truediv in E.
  destruct (Z.eqb_spec (width img) 0) as [E0|_]; [lia|].
  destruct (Z.eqb_spec (height img) 0) as [E0|_]; [lia|].
  cbn in E. injection E as <- <-.
  repeat split; try reflexivity; assumption.
Qed.

Lemma resized_size_covers_canvas_witness :
  exists new_width new_height,
    resized_size Demo.small_photo = Py.Ok (new_width, new_height)
    /\ 1200 <= new_width /\ 627 <= new_height.
Proof.
  destruct (resized_size_covers_canvas Demo.small_photo) as (nw & nh & E & _ & _ & H).
  - reflexivity.
  - reflexivity.
  - exists nw, nh. exact (conj E H).
Defined.

(** In double precision the product [img_width * scale] can round to
    just below the target, and [int] then drops a whole pixel: the
    covering property of C4 rests on its exact-arithmetic premise. *)
Example binary64_resized_size_can_fall_short :
  resized_size_binary64 281 200 = (1199, 854)
  /\ resized_size_binary64 1200 149 = (5049, 626)
  /\ resized_size_binary64 2000 1500 = (1200, 900)
  /\ resized_size (Demo.two_tone 281 200 0) = Py.Ok (1200, 854)
  /\ resized_size (Demo.two_tone 1200 149 0) = Py.Ok (5049, 627).
Proof. repeat split; vm_compute; reflexivity. Qed.

(** C1. On every image of positive width and height,
    [format_as_linkedin_post] returns, and what it returns is an RGB
    image of exactly 1200 x 627 pixels. *)
Theorem format_as_linkedin_post_size `{Pillow} (img : Image) :
  0 < width img -> 0 < height img ->
  exists post,
    format_as_linkedin_post img = Py.Ok post
    /\ size post = (1200, 627) /\ mode post = "RGB".
Proof.
  intros Hw Hh.
  destruct (resized_size_ok img Hw Hh) as (nw & nh & E & Hnw & Hnh).
  unfold format_as_linkedin_post. rewrite E. cbn.
  unfold linkedin_width, linkedin_height in *.
  assert (R : exists r, resize img nw nh = Py.Ok r).
  { unfold resize. destruct (_ && _); [eauto|].
    destruct (Z.ltb_spec nw 1); [lia|].
    destruct (Z.ltb_spec nh 1); [lia|]. cbn. eauto. }
  destruct R as [r ->]. cbn. eexists. split; [reflexivity|]. split; reflexivity.
Qed.

Lemma format_as_linkedin_post_size_witness :
  exists post,
    format_as_linkedin_post (H := Demo.box_pillow) Demo.small_photo = Py.Ok post
    /\ size post = (1200, 627) /\ mode post = "RGB".
Proof.
  apply (format_as_linkedin_post_size (H := Demo.box_pillow) Demo.small_photo);
    reflexivity.
Defined.

(** ** File Locator *)




Lemma visit_file_all_images root st f :
  (visit_file root st f).2
  = st.2 ++ (if is_candidate f then [(os_path_join root f, Py.lower f)] else []).
Proof.
  destruct st as [files all_images]. unfold visit_file, is_candidate.
  destruct (_ || _); cbn [negb andb]; [cbn; rewrite app_nil_r; reflexivity|].
  destruct (is_image_name f); [|cbn; rewrite app_nil_r; reflexivity].
  destruct (is_christmas_name _); [destruct (files !! "christmas"); reflexivity|].
  destruct (_ && _); reflexivity.
Qed.

Lemma visit_dir_all_images st entry :
  (visit_dir st entry).2 = st.2 ++ candidates_in entry.
Proof.
  unfold visit_dir, candidates_in. generalize (entry.1) as root. intros root.
  revert st. induction (entry.2) as [|f fs IH]; intros st; cbn [fold_left].
  - cbn. rewrite app_nil_r. reflexivity.
  - rewrite IH, visit_file_all_images, <- app_assoc. f_equal.
    cbn [List.filter]. destruct (is_candidate f); reflexivity.
Qed.

(** The candidates are the visible image files of the visible folders,
    in walk order. *)
Lemma scan_all_images os :
  (scan os).2
  = flat_map candidates_in
             (os_walk (fun d => negb (hidden d)) "/workspace" (workspace os)).
Proof.
  unfold scan.
  change (flat_map candidates_in ?w)
    with (((∅, []) : scan_state).2 ++ flat_map candidates_in w).
  generalize ((∅, []) : scan_state) as st.
  induction (os_walk _ _ _) as [|e es IH]; intros st; cbn [fold_left flat_map].
  - rewrite app_nil_r. reflexivity.
  - rewrite IH, visit_dir_all_images, <- app_assoc. reflexivity.
Qed.

(** Sorting keeps the elements. *)
Lemma elem_of_insert_desc x l z :
  z ∈ Py.insert_desc x l <-> z = x \/ z ∈ l.
Proof.
  induction l as [|b l IH]; cbn.
  - rewrite list_elem_of_singleton, elem_of_nil. tauto.
  - destruct (Py.tuple_ltb x b).
    + rewrite !elem_of_cons, IH. tauto.
    + rewrite !elem_of_cons. tauto.
Qed.

Lemma elem_of_sort_reverse l z : z ∈ Py.sort_reverse l <-> z ∈ l.
Proof.
  induction l as [|a l IH]; cbn; [reflexivity|].
  rewrite elem_of_insert_desc, elem_of_cons, IH. reflexivity.
Qed.




Lemma elem_of_image_sizes os all_images sz fp :
  (sz, fp) ∈ image_sizes os all_images
  <-> (exists nm, (fp, nm) ∈ all_images) /\ getsize os fp = Some sz.
Proof.
  unfold image_sizes. rewrite list_elem_of_In, in_flat_map. split.
  - intros ([fp' nm] & Hin & Hx). apply list_elem_of_In in Hin.
    destruct (getsize os fp') eqn:E; cbn in Hx; [|tauto].
    destruct Hx as [Hx | []]. injection Hx as -> ->. eauto.
  - intros [[nm Hin] E]. exists (fp, nm). split; [apply list_elem_of_In, Hin|].
    rewrite E. left. reflexivity.
Qed.






Example dangling_os_roles :
  find_image_files Samples.dangling_os !! "christmas" = Some "/workspace/b.jpg"
  /\ getsize Samples.dangling_os "/workspace/broken.png" = None.
Proof. vm_compute. split; reflexivity. Qed.

Example plain_os_roles :
  find_image_files Demo.plain_os !! "christmas" = Some "/workspace/sub/big.jpg"
  /\ find_image_files Demo.plain_os !! "logo" = Some "/workspace/a.PNG".
Proof. split; reflexivity. Qed.

(** C10. The two roles need not be distinct: in a workspace whose only
    file is an image named like a logo (its lowercased name contains
    "nimex" or "logo") and not like a Christmas image, the Locator maps
    both [christmas] and [logo] to that one file. *)
Theorem find_image_files_roles_coincide (os : OS) (name : string) (sz : Z) :
  workspace os = Dir [name] [] ->
  Py.startswith name "." = false ->
  Py.endswith name ".py" = false ->
  Py.endswith name ".html" = false ->
  is_image_name name = true ->
  is_logo_name (Py.lower name) = true ->
  Py.contains "christmas" (Py.lower name) = false ->
  getsize os (os_path_join "/workspace" name) = Some sz ->
  find_image_files os !! "christmas" = Some (os_path_join "/workspace" name)
  /\ find_image_files os !! "logo" = Some (os_path_join "/workspace" name).
Proof.
  intros Hws Hdot Hpy Hhtml Himg Hlogo Hchr Hsz.
  unfold find_image_files, scan. rewrite Hws. cbn [os_walk fold_left].
  unfold visit_dir. cbn [fst snd fold_left]. unfold visit_file.
  rewrite Hdot, Hpy, Hhtml, Himg. cbn [orb app].
  unfold is_christmas_name. rewrite Hchr, Hlogo. cbn [andb].
  rewrite lookup_empty, bool_decide_eq_true_2 by reflexivity.
  unfold assign_roles.
  rewrite lookup_insert_ne by discriminate. rewrite lookup_empty.
  unfold image_sizes. cbn [flat_map]. rewrite Hsz. cbn [app Py.sort_reverse Py.insert_desc].
  rewrite lookup_insert_ne by discriminate. rewrite lookup_insert_eq.
  split.
  - apply lookup_insert_eq.
  - rewrite lookup_insert_ne by discriminate. apply lookup_insert_eq.
Qed.

Lemma find_image_files_roles_coincide_witness :
  find_image_files Demo.single_os !! "christmas" = Some "/workspace/Nimex.PNG"
  /\ find_image_files Demo.single_os !! "logo" = Some "/workspace/Nimex.PNG".
Proof.
  apply (find_image_files_roles_coincide Demo.single_os "Nimex.PNG" 5000);
    reflexivity.
Defined.

(** ** Caption Renderer *)

(** The caption is the last of 49 calls: 48 black ones around it, then
    the white one. *)
Lemma caption_xy_last `{Pillow} img text position logo_info calls xy :
  text_calls img text position logo_info = calls ++ [mkCall xy text_color] ->
  caption_xy img text position logo_info = Some xy.
Proof. intros E. unfold caption_xy. rewrite E, last_snoc. reflexivity. Qed.

Lemma caption_without_box `{Pillow} (img : Image) (text : string) :
  caption_xy img text "below_logo" None
  = Some (width img / 2, height img - 120).
Proof. eapply caption_xy_last. reflexivity. Qed.

Lemma caption_center_bottom `{Pillow} (img : Image) (text : string)
      (logo_info : option bbox) :
  caption_xy img text "center_bottom" logo_info
  = Some ((width img - text_width_of img text) / 2, height img - 120).
Proof. eapply caption_xy_last. reflexivity. Qed.

(** C3, at the input where the script departs from it: position
    'below_logo' and no logo box.  The caption's left edge is put at
    [width // 2], for every image, caption and font; on the 1200 x 627
    sample, whose caption measures 396 pixels, that is x = 600 and not
    the centred x = 402 which 'center_bottom' yields. *)
Theorem caption_without_box_not_centered :
  (forall (P : Pillow) (img : Image) (text : string),
      caption_xy img text "below_logo" None
      = Some (width img / 2, height img - 120))
  /\ caption_xy (H := Demo.box_pillow) Demo.photo message "below_logo" None
     = Some (600, 507)
  /\ text_width_of (H := Demo.box_pillow) Demo.photo message = 396
  /\ caption_xy (H := Demo.box_pillow) Demo.photo message "center_bottom" None
     = Some ((1200 - 396) / 2, 627 - 120).
Proof.
  split; [intros; apply caption_without_box|].
  repeat split; reflexivity.
Qed.

Lemma apply_text_calls_size `{Pillow} text font calls img :
  size (fold_left (apply_text_call text font) calls img) = size img.
Proof.
  revert img. induction calls as [|c cs IH]; intros img; cbn; [reflexivity|].
  rewrite IH. reflexivity.
Qed.

Lemma add_text_to_image_size `{Pillow} img text position logo_info :
  exists img', add_text_to_image img text position logo_info = Py.Ok img'
               /\ size img' = size img.
Proof.
  eexists. split; [reflexivity|]. apply apply_text_calls_size.
Qed.



(** On the sample both branches return, with the caption where C6 puts
    it. *)
Example caption_below_logo_returns :
  (exists img', add_text_to_image (H := Demo.box_pillow) Demo.photo message
                  "below_logo" (Some (40, 407, 180, 180)) = Py.Ok img')
  /\ (exists img', add_text_to_image (H := Demo.box_pillow) Demo.photo message
                     "below_logo" (Some (900, 407, 180, 180)) = Py.Ok img').
Proof. split; eexists; reflexivity. Qed.

Example caption_below_logo_fits :
  caption_xy (H := Demo.box_pillow) Demo.photo message "below_logo"
             (Some (40, 407, 180, 180)) = Some (40, 617).
Proof. reflexivity. Qed.

Example caption_below_logo_overflows :
  caption_xy (H := Demo.box_pillow) Demo.photo message "below_logo"
             (Some (900, 407, 180, 180)) = Some (402, 617).
Proof. reflexivity. Qed.

(** ** Logo Compositor *)

(** C5 as stated fails: a loadable 400 x 1 logo on the 1200 x 627 sample
    is resized to 180 x int(0.45) = 180 x 0, [resize] raises, the handler
    prints the error and returns the null box. *)
Lemma add_logo_thin_logo_null_box :
  image_open (Demo.logo_os Demo.strip_logo) "/logos/logo.png"
  = Py.Ok Demo.strip_logo
  /\ decode_error (Demo.logo_os Demo.strip_logo) "/logos/logo.png" = None
  /\ size Demo.strip_logo = (400, 1)
  /\ (add_logo_to_image (H := Demo.box_pillow) (Demo.logo_os Demo.strip_logo)
                        Demo.photo "/logos/logo.png" "bottom_left").1.2 = None
  /\ (add_logo_to_image (H := Demo.box_pillow) (Demo.logo_os Demo.strip_logo)
                        Demo.photo "/logos/logo.png" "bottom_left").2
     = ["Error adding logo: height and width must be > 0"].
Proof. repeat split; reflexivity. Qed.

(** The same on a base image only 6 pixels wide: int(6 * 0.15) = 0. *)
Example add_logo_narrow_base_null_box :
  (add_logo_to_image (H := Demo.box_pillow) (Demo.logo_os Demo.square_logo)
                     (Demo.two_tone 6 60 10) "/logos/logo.png" "top_left").1.2
  = None.
Proof. reflexivity. Qed.

(** The same where only the rounding of the double division brings the
    height below 1: a 49 x 1 logo on a 330 x 200 base is 49 pixels wide
    and int(49 * (1 / 49)) = int(0.9999999999999999) = 0 pixels high. *)
Example add_logo_rounded_height_null_box :
  Py.int (inject_Z 330 * 0.15)%Q = 49
  /\ Binary64.int (Binary64.mul (Binary64.of_int 49)
                                (Binary64.div (Binary64.of_int 1)
                                              (Binary64.of_int 49))) = 0
  /\ Binary64.int (Binary64.mul (Binary64.of_int 30)
                                (Binary64.div (Binary64.of_int 49)
                                              (Binary64.of_int 3))) = 489
  /\ (add_logo_to_image (H := Demo.box_pillow)
        (Demo.logo_os (Demo.flat_rgba 49 1 (Demo.grey 200)))
        (Demo.two_tone 330 200 50) "/logos/logo.png" "bottom_left").1.2 = None.
Proof. repeat split; vm_compute; reflexivity. Qed.

(** The [try] block on a logo that opens and decodes, up to the paste. *)
Lemma add_logo_try_loaded `{Pillow} os base_img logo logo_path position :
  image_open os logo_path = Py.Ok logo ->
  decode_error os logo_path = None ->
  width logo <> 0 ->
  exists logo',
    width logo' = width logo /\ height logo' = height logo
    /\ add_logo_try os base_img logo_path position
       = let '(base_width, base_height) := size base_img in
         let logo_width := Py.int (inject_Z base_width * 0.15)%Q in
         let logo_height :=
           Binary64.int
             (Binary64.mul (Binary64.of_int logo_width)
                (Binary64.div (Binary64.of_int (height logo))
                              (Binary64.of_int (width logo)))) in
         logo ← resize logo' logo_width logo_height;
         let '(x, y) :=
           if String.eqb position "bottom_left" then
             (40, base_height - logo_height - 40)
           else if String.eqb position "bottom_right" then
             (base_width - logo_width - 40, base_height - logo_height - 40)
           else if String.eqb position "top_left" then
             (40, 40)
           else
             (base_width - logo_width - 40, 40) in
         Py.Ok (paste base_img logo x y (Some logo),
                (x, y, logo_width, logo_height)).
Proof.
  intros Hopen Hdec Hw.
  exists (if bool_decide (mode logo ≠ "RGBA") then convert logo "RGBA" else logo).
  split; [destruct (bool_decide _); reflexivity|].
  split; [destruct (bool_decide _); reflexivity|].
  unfold add_logo_try, load, float_truediv. rewrite Hopen, Hdec.
  cbn [mbind Py.result_bind].
  destruct (bool_decide (mode logo ≠ "RGBA")); cbn [mbind Py.result_bind];
    unfold size; cbn [convert width height];
    (destruct (Z.eqb_spec (width logo) 0) as [E|_]; [contradiction|]);
    cbn [mbind Py.result_bind]; reflexivity.
Qed.

(** C5, amended.  For a logo that opens and decodes, of positive width
    and height, let w = int(0.15 * base_width) and
    h = int(w * (logo.height / logo.width)), in double precision.  When
    w >= 1 and h >= 1, the Compositor returns the box (x, y, w, h) with
    the origin 40 pixels inside the requested corner.  Otherwise the
    resize raises: the Compositor prints
    "Error adding logo: height and width must be > 0" and returns the
    base image with a null box. *)
Theorem add_logo_to_image_box `{Pillow} (os : OS) (base_img logo : Image)
        (logo_path position : string) :
  let logo_width := Py.int (inject_Z (width base_img) * 0.15)%Q in
  let logo_height :=
    Binary64.int
      (Binary64.mul (Binary64.of_int logo_width)
         (Binary64.div (Binary64.of_int (height logo))
                       (Binary64.of_int (width logo)))) in
  image_open os logo_path = Py.Ok logo ->
  decode_error os logo_path = None ->
  0 < width logo -> 0 < height logo ->
  (1 <= logo_width /\ 1 <= logo_height ->
   exists x y,
     (add_logo_to_image os base_img logo_path position).1.2
     = Some (x, y, logo_width, logo_height)
     /\ (position = "bottom_left" ->
         x = 40 /\ y = height base_img - logo_height - 40)
     /\ (position = "bottom_right" ->
         x = width base_img - logo_width - 40
         /\ y = height base_img - logo_height - 40)
     /\ (position = "top_left" -> x = 40 /\ y = 40)
     /\ (position = "top_right" ->
         x = width base_img - logo_width - 40 /\ y = 40))
  /\ (logo_width < 1 \/ logo_height < 1 ->
      add_logo_to_image os base_img logo_path position
      = (base_img, None,
         ["Error adding logo: height and width must be > 0"])).
Proof.
  intros logo_width logo_height Hopen Hdec Hw Hh.
  destruct (add_logo_try_loaded os base_img logo logo_path position Hopen Hdec)
    as (logo' & Ew & Eh & Etry); [lia|].
  unfold add_logo_to_image. rewrite Etry. clear Etry.
  unfold size. fold logo_width. fold logo_height.
  split.
  - intros [Hlw Hlh].
    assert (R : exists r, resize logo' logo_width logo_height = Py.Ok r).
    { unfold resize. destruct (_ && _); [eauto|].
      destruct (Z.ltb_spec logo_width 1); [lia|].
      destruct (Z.ltb_spec logo_height 1); [lia|]. cbn. eauto. }
    destruct R as [r ->]. cbn [mbind Py.result_bind].
    destruct (String.eqb_spec position "bottom_left") as [-> | N1].
    { cbn. eexists _, _. split; [reflexivity|]. repeat split; congruence. }
    destruct (String.eqb_spec position "bottom_right") as [-> | N2].
    { cbn. eexists _, _. split; [reflexivity|]. repeat split; congruence. }
    destruct (String.eqb_spec position "top_left") as [-> | N3].
    { cbn. eexists _, _. split; [reflexivity|]. repeat split; congruence. }
    cbn. eexists _, _. split; [reflexivity|]. repeat split; congruence.
  - intros Hsmall.
    assert (R : resize logo' logo_width logo_height
                = Py.Raise (Py.ValueError "height and width must be > 0")).
    { unfold resize. rewrite Ew, Eh.
      destruct (Z.eqb_spec logo_width (width logo)) as [E1|_];
        destruct (Z.eqb_spec logo_height (height logo)) as [E2|_];
        cbn [andb]; try lia;
        destruct (Z.ltb_spec logo_width 1);
        destruct (Z.ltb_spec logo_height 1); cbn [orb]; first [lia | reflexivity]. }
    rewrite R. reflexivity.
Qed.

Lemma add_logo_to_image_box_witness :
  (exists x y,
      (add_logo_to_image (H := Demo.box_pillow) (Demo.logo_os Demo.square_logo)
                         Demo.photo "/logos/logo.png" "bottom_left").1.2
      = Some (x, y, 180, 180)
      /\ x = 40 /\ y = 407)
  /\ add_logo_to_image (H := Demo.box_pillow) (Demo.logo_os Demo.strip_logo)
                       Demo.photo "/logos/logo.png" "top_right"
     = (Demo.photo, None, ["Error adding logo: height and width must be > 0"]).
Proof.
  split.
  - destruct (proj1 (add_logo_to_image_box (H := Demo.box_pillow)
                       (Demo.logo_os Demo.square_logo) Demo.photo
                       Demo.square_logo "/logos/logo.png" "bottom_left"
                       eq_refl eq_refl eq_refl eq_refl))
      as (x & y & E & Hbl & _).
    + split; vm_compute; discriminate.
    + exists x, y. split; [exact E|]. destruct (Hbl eq_refl) as [-> ->].
      split; reflexivity.
  - apply (proj2 (add_logo_to_image_box (H := Demo.box_pillow)
                    (Demo.logo_os Demo.strip_logo) Demo.photo
                    Demo.strip_logo "/logos/logo.png" "top_right"
                    eq_refl eq_refl eq_refl eq_refl)).
    right. vm_compute. reflexivity.
Defined.

(** On failure the base image comes back as it was. *)
Lemma add_logo_to_image_failure `{Pillow} os base_img logo_path position :
  (add_logo_to_image os base_img logo_path position).1.2 = None ->
  (add_logo_to_image os base_img logo_path position).1.1 = base_img.
Proof.
  unfold add_logo_to_image.
  destruct (add_logo_try _ _ _ _) as [[img box]|e]; cbn; [discriminate|reflexivity].
Qed.

(** ** main *)

(** C2, at the input where the script departs from it: the workspace
    holds christmas.png and logo.png and the command line names a logo
    that does not exist.  The script prints the warning and
    "Continuing without logo...", and then composites the logo the
    Locator found: the run saves the post with a logo box. *)
Theorem main_missing_logo_override `{Pillow} :
  let run := main Demo.branded_os
                  (mkArgs None (Some "/missing.png") "/workspace/out.png") in
  path_exists Demo.branded_os "/missing.png" = false
  /\ run.1 =
     ["Searching for image files...";
      "WARNING: Logo not found at: /missing.png";
      "Continuing without logo...";
      "Found Christmas image: /workspace/christmas.png";
      "Found logo: /workspace/logo.png";
      "Loaded Christmas image: (200, 100)";
      "Removing 'and happy newyear' text...";
      "Adding logo...";
      "Adding message: 'May this christmas bring prosperity, love and success to your life'";
      "Formatting as LinkedIn post (1200x627px)...";
      "✓ Saved LinkedIn post to: /workspace/out.png";
      "  Dimensions: 1200x627px"]
  /\ saved_summary run.2
     = Some ("/workspace/out.png", (1200, 627), Some (40, 30, 30, 30)).
Proof.
  cbv zeta. split; [reflexivity|]. split; vm_compute; reflexivity.
Qed.

(** With no logo in the workspace the same command line does run
    without a logo. *)
Example main_missing_logo_no_fallback `{Pillow} :
  let os := Demo.table_os (Dir ["christmas.png"] [])
              [("/workspace/christmas.png", (900000, Demo.two_tone 200 100 50))] in
  saved_summary
    (main os (mkArgs None (Some "/missing.png") "/workspace/out.png")).2
  = Some ("/workspace/out.png", (1200, 627), None).
Proof. vm_compute. reflexivity. Qed.

(** ** Text Eraser *)

Lemma int_opp (q : Q) : Py.int (- q) = - Py.int q.
Proof. unfold Py.int. destruct q as [n d]; cbn. apply Z.quot_opp_l. discriminate. Qed.

Lemma Qopp_opp_eq (q : Q) : (- - q)%Q = q.
Proof. destruct q as [n d]. unfold Qopp; cbn. f_equal. lia. Qed.

(** [int] depends on the value of the rational, not on its fraction. *)
Lemma int_comp (x y : Q) : x == y -> Py.int x = Py.int y.
Proof.
  intros E. destruct (Qlt_le_dec x 0) as [Hneg | Hpos].
  - assert (Hx : (0 <= - x)%Q).
    { apply Qlt_le_weak in Hneg. apply Qopp_le_compat in Hneg. exact Hneg. }
    assert (Hy : (0 <= - y)%Q) by (rewrite <- E; exact Hx).
    assert (Ex : Py.int x = - Qfloor (- x))
      by (rewrite <- (int_floor _ Hx), <- int_opp, Qopp_opp_eq; reflexivity).
    assert (Ey : Py.int y = - Qfloor (- y))
      by (rewrite <- (int_floor _ Hy), <- int_opp, Qopp_opp_eq; reflexivity).
    rewrite Ex, Ey. f_equal. apply Qfloor_comp. rewrite E. reflexivity.
  - assert (Hy : (0 <= y)%Q) by (rewrite <- E; exact Hpos).
    rewrite (int_floor _ Hpos), (int_floor _ Hy). apply Qfloor_comp, E.
Qed.

Lemma text_area_height_eq (h : Z) :
  0 <= h -> text_area_height_of h = 12 * h / 100.
Proof.
  intros Hh. unfold text_area_height_of, Py.int. cbn.
  rewrite Z.quot_div_nonneg by lia. f_equal. lia.
Qed.

Lemma text_area_height_bounds (h : Z) :
  0 <= h -> 0 <= text_area_height_of h <= h.
Proof.
  intros Hh. rewrite text_area_height_eq by exact Hh.
  split.
  - apply Z.div_pos; lia.
  - apply Z.div_le_upper_bound; lia.
Qed.

(** The band reaches the bottom: start + height + 30 = image height. *)
Lemma band_geometry (h : Z) :
  text_area_y_start_of h + text_area_height_of h + 30 = h.
Proof. unfold text_area_y_start_of. lia. Qed.

Lemma band_start_positive (h : Z) :
  0 < text_area_y_start_of h -> 30 < h.
Proof.
  intros Hs. destruct (Z.le_gt_cases 0 h) as [Hh | Hh].
  - pose proof (text_area_height_bounds h Hh). unfold text_area_y_start_of in Hs. lia.
  - exfalso. unfold text_area_y_start_of, text_area_height_of, Py.int in Hs.
    cbn in Hs. change (Z.pos (1 * 100)) with 100 in Hs.
    assert (h * 12 ÷ 100 = - ((- h * 12) ÷ 100)).
    { rewrite <- Z.quot_opp_l by discriminate. f_equal. lia. }
    assert (0 <= (- h * 12) ÷ 100 <= - h).
    { rewrite Z.quot_div_nonneg by lia. split.
      - apply Z.div_pos; lia.
      - apply Z.div_le_upper_bound; lia. }
    lia.
Qed.

Lemma band_start_gradient (h : Z) :
  20 < text_area_y_start_of h -> 6 <= text_area_height_of h.
Proof.
  intros Hs. assert (30 < h) by (apply band_start_positive; lia).
  pose proof (text_area_height_bounds h ltac:(lia)).
  assert (51 <= h) by (unfold text_area_y_start_of in Hs; lia).
  rewrite text_area_height_eq by lia.
  apply Z.div_le_lower_bound; lia.
Qed.

(** [range] *)
Lemma range_cons (a b : Z) : a < b -> Py.range a b = a :: Py.range (a + 1) b.
Proof.
  intros Hab. unfold Py.range.
  replace (Z.to_nat (b - a)) with (S (Z.to_nat (b - (a + 1)))) by lia.
  cbn [seq map]. f_equal; [lia|].
  rewrite <- seq_shift, map_map. apply map_ext. intros k. lia.
Qed.

Lemma range_snoc (n : nat) :
  Py.range 0 (Z.of_nat (S n)) = Py.range 0 (Z.of_nat n) ++ [Z.of_nat n].
Proof.
  unfold Py.range. rewrite !Z.sub_0_r, !Nat2Z.id, seq_S, map_app. reflexivity.
Qed.

Lemma elem_of_range (a b i : Z) : i ∈ Py.range a b -> a <= i < b.
Proof.
  unfold Py.range. rewrite list_elem_of_In, in_map_iff.
  intros (k & <- & Hk). apply in_seq in Hk. lia.
Qed.

Lemma window_nonempty (img : Image) (r0 r1 c0 c1 : Z) :
  r0 < r1 -> c0 < c1 -> window img r0 r1 c0 c1 <> [].
Proof.
  intros Hr Hc. unfold window.
  rewrite (range_cons r0 r1 Hr), (range_cons c0 c1 Hc). discriminate.
Qed.

Lemma mean_color_ok (pixels : list color) :
  pixels <> [] -> exists c, mean_color pixels = Py.Ok c.
Proof. destruct pixels; [congruence|]. intros _. cbn. eauto. Qed.

Lemma mean_color_raise (pixels : list color) e :
  mean_color pixels = Py.Raise e -> pixels = [].
Proof. destruct pixels; [reflexivity|discriminate]. Qed.

(** The base colour exists on every image at least one pixel wide and
    four pixels high. *)
Lemma avg_color_of_ok (img : Image) :
  0 < width img -> 4 <= height img ->
  exists c, avg_color_of img = Py.Ok c.
Proof.
  intros Hw Hh. unfold avg_color_of, sample_regions.
  pose proof (text_area_height_bounds (height img) ltac:(lia)) as Hb.
  pose proof (band_geometry (height img)) as Hg.
  set (ys := text_area_y_start_of (height img)) in *.
  destruct (Z.ltb_spec 0 ys) as [Hys | Hys].
  - set (r1 := Py.slice_index (Z.max 0 (ys - 50)) (height img)).
    set (r2 := Py.slice_index ys (height img)).
    set (right := window img r1 r2 (Py.slice_index (- (width img / 4)) (width img))
                         (width img)).
    assert (Hright : right <> []).
    { apply window_nonempty.
      - subst r1 r2. unfold Py.slice_index.
        destruct (Z.ltb_spec (Z.max 0 (ys - 50)) 0), (Z.ltb_spec ys 0); lia.
      - unfold Py.slice_index.
        assert (0 <= width img / 4) by (apply Z.div_pos; lia).
        destruct (Z.ltb_spec (- (width img / 4)) 0); lia. }
    destruct (50 <? ys); cbn [app]; apply mean_color_ok; cbn [concat]; intros E.
    + apply app_eq_nil in E as [_ E]. apply app_eq_nil in E as [_ E].
      apply app_eq_nil in E as [E _]. contradiction.
    + apply app_eq_nil in E as [_ E]. apply app_eq_nil in E as [E _].
      contradiction.
  - assert (E50 : (50 <? ys) = false) by (apply Z.ltb_ge; lia).
    rewrite E50. cbn [app]. apply mean_color_ok, window_nonempty; [|lia].
    unfold Py.slice_index.
    assert (1 <= height img / 4) by (apply Z.div_le_lower_bound; lia).
    destruct (Z.ltb_spec (height img / 4) 0); lia.
Qed.

Lemma paint_strip_size avg blend tah ys img i :
  width (paint_strip avg blend tah ys img i) = width img
  /\ height (paint_strip avg blend tah ys img i) = height img.
Proof. unfold paint_strip. destruct (_ <? _); split; reflexivity. Qed.

(** A strip leaves the rows above it alone. *)
Lemma paint_strip_above avg blend tah ys img i x y :
  y < ys + i ->
  getpixel (paint_strip avg blend tah ys img i) x y = getpixel img x y.
Proof.
  intros Hy. unfold paint_strip. destruct (_ <? _); [|reflexivity]. cbn.
  destruct (Z.leb_spec (ys + i) y); [lia|].
  rewrite !andb_false_r. reflexivity.
Qed.

Lemma paint_strips_above avg blend tah ys (strips : list Z) img x y :
  (forall i, i ∈ strips -> 0 <= i) -> y < ys ->
  getpixel (fold_left (paint_strip avg blend tah ys) strips img) x y
  = getpixel img x y.
Proof.
  revert img. induction strips as [|i strips IH]; intros img Hpos Hy; cbn;
    [reflexivity|].
  rewrite IH.
  - apply paint_strip_above.
    assert (0 <= i) by (apply Hpos, elem_of_cons; left; reflexivity). lia.
  - intros j Hj. apply Hpos, elem_of_cons. right. exact Hj.
  - exact Hy.
Qed.

Lemma paint_strips_size avg blend tah ys (strips : list Z) img :
  size (fold_left (paint_strip avg blend tah ys) strips img) = size img.
Proof.
  revert img. induction strips as [|i strips IH]; intros img; cbn; [reflexivity|].
  rewrite IH. unfold size.
  destruct (paint_strip_size avg blend tah ys img i) as [-> ->]. reflexivity.
Qed.

(** After the first [k] strips: rows [ys .. ys + k - 1] carry their own
    strip's colour, row [ys + k] the colour of strip [k - 1], and every
    other pixel is as before. *)
Lemma paint_strips_rows avg blend tah ys img (k : nat) :
  ys + Z.of_nat k <= height img ->
  forall x y,
    getpixel (fold_left (paint_strip avg blend tah ys)
                        (Py.range 0 (Z.of_nat k)) img) x y
    = if in_bounds img x y && (ys <=? y) && (y <=? ys + Z.of_nat k)
         && (0 <? Z.of_nat k)
      then blended_color avg blend (Z.min (y - ys) (Z.of_nat k - 1)) tah
      else getpixel img x y.
Proof.
  induction k as [|k IH]; intros Hk x y.
  - cbn [Z.of_nat]. rewrite Z.ltb_irrefl, andb_false_r. reflexivity.
  - rewrite range_snoc, fold_left_app. cbn [fold_left].
    set (prev := fold_left _ _ img) in *.
    assert (Hsz : size prev = size img) by apply paint_strips_size.
    injection Hsz as Hpw Hph.
    unfold paint_strip. rewrite Hph.
    destruct (Z.ltb_spec (ys + Z.of_nat k) (height img)); [|lia].
    cbn [getpixel draw_rectangle]. rewrite IH by lia.
    unfold in_bounds. rewrite Hpw, Hph.
    cases_on_comparisons; cbn [andb]; try reflexivity; try lia;
      f_equal; lia.
Qed.

Lemma blend_samples_nonempty (img : Image) (ys : Z) :
  0 < width img -> 20 < ys -> ys < height img ->
  blend_samples img ys <> [].
Proof.
  intros Hw Hys Hh. unfold blend_samples.
  change (Py.range_step (-20) 0 5) with [-20; -15; -10; -5].
  cbn [flat_map].
  assert (0 <= width img / 4 < width img).
  { split; [apply Z.div_pos; lia | apply Z.div_lt_upper_bound; lia]. }
  destruct (Z.leb_spec 0 (ys + -20)); [|lia].
  destruct (Z.ltb_spec (ys + -20) (height img)); [|lia].
  destruct (Z.leb_spec 0 (width img / 4)); [|lia].
  destruct (Z.ltb_spec (width img / 4) (width img)); [|lia].
  cbn. discriminate.
Qed.

Lemma int_div (s n : Z) :
  0 <= s -> 0 < n -> Py.int (inject_Z s / inject_Z n)%Q = s / n.
Proof.
  intros Hs Hn. rewrite Zdiv_Qdiv. apply int_floor.
  apply Qle_shift_div_l.
  - change 0%Q with (inject_Z 0). rewrite <- Zlt_Qlt. exact Hn.
  - rewrite Qmult_0_l. change 0%Q with (inject_Z 0). rewrite <- Zle_Qle. exact Hs.
Qed.

(** The colour formula of lines 139-142 on integers. *)
Lemma sum_band_bounds (band : color -> Z) (pixels : list color) :
  (forall c, In c pixels -> 0 <= band c <= 255) ->
  0 <= sum_band band pixels <= 255 * Z.of_nat (length pixels).
Proof.
  unfold sum_band. induction pixels as [|c l IH]; intros H; cbn [map fold_right length].
  - lia.
  - assert (0 <= band c <= 255) by (apply H; left; reflexivity).
    assert (0 <= fold_right Z.add 0 (map band l) <= 255 * Z.of_nat (length l))
      by (apply IH; intros c' Hc'; apply H; right; exact Hc').
    lia.
Qed.

(** The mean of 8-bit colours is an 8-bit colour. *)
Lemma mean_color_valid (pixels : list color) (c : color) :
  (forall p, In p pixels -> valid_color p) ->
  mean_color pixels = Py.Ok c -> valid_color c.
Proof.
  intros Hv. destruct pixels as [|p l] eqn:El; [discriminate|]. rewrite <- El in *.
  assert (Hlen : 0 < Z.of_nat (length pixels)) by (rewrite El; cbn; lia).
  unfold mean_color. rewrite El at 1. intros [= <-]. unfold valid_color. cbn [fst snd].
  assert (Hband : forall band : color -> Z,
            (forall q, In q pixels -> 0 <= band q <= 255) ->
            0 <= Py.int (inject_Z (sum_band band pixels)
                         / inject_Z (Z.of_nat (length pixels)))%Q <= 255).
  { intros band Hb. pose proof (sum_band_bounds band pixels Hb).
    rewrite int_div by lia. split.
    - apply Z.div_pos; lia.
    - apply Z.div_le_upper_bound; lia. }
  repeat split; apply Hband; intros q Hq; destruct (Hv q Hq) as (? & ? & ?); lia.
Qed.

Lemma window_pixels (img : Image) r0 r1 c0 c1 p :
  In p (window img r0 r1 c0 c1) -> exists x y, p = getpixel img x y.
Proof.
  unfold window. rewrite in_flat_map. intros (y & _ & Hp).
  apply in_map_iff in Hp as (x & <- & _). eauto.
Qed.

Lemma avg_color_of_valid (img : Image) (c : color) :
  (forall x y, valid_color (getpixel img x y)) ->
  avg_color_of img = Py.Ok c -> valid_color c.
Proof.
  intros Hv. unfold avg_color_of.
  assert (Hw : forall r0 r1 c0 c1 p, In p (window img r0 r1 c0 c1) -> valid_color p).
  { intros r0 r1 c0 c1 p Hp. apply window_pixels in Hp as (x & y & ->). apply Hv. }
  assert (Hregions : forall p, In p (concat (sample_regions img)) -> valid_color p).
  { intros p Hp. apply in_concat in Hp as (region & Hr & Hp).
    unfold sample_regions in Hr. apply in_app_or in Hr as [Hr | Hr].
    - destruct (_ <? _); [|destruct Hr]. destruct Hr as [<- | []]. eapply Hw, Hp.
    - destruct (_ <? _); [|destruct Hr].
      destruct Hr as [<- | [<- | []]]; eapply Hw, Hp. }
  destruct (sample_regions img) as [|r rs] eqn:E.
  - apply mean_color_valid. intros p Hp. eapply Hw, Hp.
  - apply mean_color_valid, Hregions.
Qed.

Lemma blend_samples_pixels (img : Image) ys p :
  In p (blend_samples img ys) -> exists x y, p = getpixel img x y.
Proof.
  unfold blend_samples. rewrite in_flat_map. intros (x & _ & Hp).
  apply in_flat_map in Hp as (dy & _ & Hp).
  destruct (_ && _); [|destruct Hp]. destruct Hp as [<- | []]. eauto.
Qed.

(** *** Doubles *)

Lemma digits2_pos_iter_xO (p k : positive) :
  digits2_pos (Pos.iter xO p k) = (digits2_pos p + k)%positive.
Proof.
  revert p. induction k using Pos.peano_ind; intros p.
  - cbn. lia.
  - rewrite Pos.iter_succ. cbn [digits2_pos]. rewrite IHk. lia.
Qed.

Lemma digits2_pos_bound (p : positive) (k : Z) :
  0 <= k -> Z.pos p < 2 ^ k -> Z.pos (digits2_pos p) <= k.
Proof.
  revert k. induction p as [p IH|p IH|]; intros k Hk Hp; cbn [digits2_pos].
  - assert (0 < k) by (destruct (Z.eq_dec k 0); [subst; cbn in Hp; lia|lia]).
    replace k with (Z.succ (k - 1)) in Hp by lia.
    rewrite Z.pow_succ_r in Hp by lia.
    specialize (IH (k - 1) ltac:(lia) ltac:(lia)). lia.
  - assert (0 < k) by (destruct (Z.eq_dec k 0); [subst; cbn in Hp; lia|lia]).
    replace k with (Z.succ (k - 1)) in Hp by lia.
    rewrite Z.pow_succ_r in Hp by lia.
    specialize (IH (k - 1) ltac:(lia) ltac:(lia)). lia.
  - destruct (Z.eq_dec k 0); [subst; cbn in Hp; lia|lia].
Qed.

(** A positive integer below 2^53 converts to a positive finite double. *)
Lemma of_int_pos_finite (p : positive) :
  Z.pos p < 2 ^ 53 ->
  exists m e, Binary64.of_int (Z.pos p) = S754_finite false m e.
Proof.
  intros Hp. pose proof (digits2_pos_bound p 53 ltac:(lia) Hp) as Hd.
  unfold Binary64.of_int, binary_normalize, binary_round.
  set (d := digits2_pos p) in *.
  assert (Ef : fexp Binary64.prec Binary64.emax (Z.pos d + 0) = Z.pos d - 53).
  { unfold fexp, emin, Binary64.prec, Binary64.emax. lia. }
  rewrite Ef. unfold shl_align.
  assert (Aux : forall m e, Z.pos (digits2_pos m) = 53 -> -1074 <= e <= 971 ->
            binary_round_aux Binary64.prec Binary64.emax false (Z.pos m) e
                             loc_Exact
            = S754_finite false m e).
  { intros m e Hm He. unfold binary_round_aux, shr_fexp.
    cbn [Zdigits2 shr_record_of_loc]. rewrite Hm.
    assert (E0 : fexp Binary64.prec Binary64.emax (53 + e) - e = 0).
    { unfold fexp, emin, Binary64.prec, Binary64.emax. lia. }
    rewrite E0. cbn [shr shr_m loc_of_shr_record round_nearest_even Zdigits2
                     shr_record_of_loc].
    rewrite Hm, E0. cbn [shr shr_m].
    destruct (Z.leb_spec e (Binary64.emax - Binary64.prec)); [reflexivity|].
    unfold Binary64.emax, Binary64.prec in *. lia. }
  destruct (Z.pos d - 53 - 0) as [|q|q] eqn:Eq; try lia.
  - eexists _, _. apply Aux; lia.
  - eexists _, _. apply Aux.
    + rewrite digits2_pos_iter_xO. fold d. lia.
    + lia.
Qed.

(** [0 / n = 0.0] *)
Lemma div_zero_pos (n : Z) :
  0 < n < 2 ^ 53 ->
  Binary64.div (Binary64.of_int 0) (Binary64.of_int n) = S754_zero false.
Proof.
  intros Hn. destruct n as [|p|p]; try lia.
  destruct (of_int_pos_finite p) as (m & e & ->); [lia|]. reflexivity.
Qed.

(** [int(a * (1 - 0.0) + b * 0.0) = a] on 8-bit values, by running all
    of them. *)
Lemma band_alpha_zero (a b : Z) :
  0 <= a <= 255 -> 0 <= b <= 255 ->
  Binary64.int
    (Binary64.add
       (Binary64.mul (Binary64.of_int a)
                     (Binary64.sub (Binary64.of_int 1) (S754_zero false)))
       (Binary64.mul (Binary64.of_int b) (S754_zero false))) = a.
Proof.
  intros Ha Hb.
  assert (Tb : forallb (fun k =>
                 match Binary64.mul (Binary64.of_int (Z.of_nat k))
                                    (S754_zero false) with
                 | S754_zero false => true
                 | _ => false
                 end) (seq 0 256) = true) by (vm_compute; reflexivity).
  assert (Ta : forallb (fun k =>
                 Binary64.int
                   (Binary64.add
                      (Binary64.mul (Binary64.of_int (Z.of_nat k))
                         (Binary64.sub (Binary64.of_int 1) (S754_zero false)))
                      (S754_zero false)) =? Z.of_nat k) (seq 0 256) = true)
    by (vm_compute; reflexivity).
  rewrite forallb_forall in Tb, Ta.
  specialize (Tb (Z.to_nat b) ltac:(apply in_seq; lia)).
  specialize (Ta (Z.to_nat a) ltac:(apply in_seq; lia)).
  rewrite Z2Nat.id in Tb, Ta by lia.
  destruct (Binary64.mul (Binary64.of_int b) (S754_zero false))
    as [[|]| | |]; try discriminate.
  apply Z.eqb_eq, Ta.
Qed.

(** Strip 0 has the base colour. *)
Lemma blended_color_0 (avg blend : color) (tah : Z) :
  valid_color avg -> valid_color blend -> 0 < tah < 2 ^ 53 ->
  blended_color avg blend 0 tah = avg.
Proof.
  intros (Ha1 & Ha2 & Ha3) (Hb1 & Hb2 & Hb3) Ht.
  destruct avg as [[r g] b]. unfold blended_color. cbn [fst snd] in *.
  rewrite (div_zero_pos tah Ht), !band_alpha_zero by assumption.
  reflexivity.
Qed.

(** C9. Whenever the Text Eraser returns, the image has its size and
    every pixel above the band start row
    (y < height - int(0.12 * height) - 30) is as it was; it raises, before
    it has drawn anything, only on an image less than four pixels high or
    with no columns. *)
Theorem remove_text_from_image_frame (img : Image) (text : string) :
  match remove_text_from_image img text with
  | Py.Ok img' =>
      size img' = size img
      /\ forall x y, y < text_area_y_start_of (height img) ->
                     getpixel img' x y = getpixel img x y
  | Py.Raise _ => height img < 4 \/ width img <= 0
  end.
Proof.
  unfold remove_text_from_image.
  destruct (avg_color_of img) as [avg|e] eqn:Eavg; cbn [mbind Py.result_bind].
  - set (ys := text_area_y_start_of (height img)).
    set (base := draw_rectangle img 0 ys (width img) (height img) avg).
    assert (Hbase : forall x y, y < ys -> getpixel base x y = getpixel img x y).
    { intros x y Hy. cbn. destruct (Z.leb_spec ys y); [lia|].
      rewrite !andb_false_r. reflexivity. }
    destruct (20 <? ys); [|split; [reflexivity|exact Hbase]].
    destruct (blend_samples img ys) as [|s samples];
      [split; [reflexivity|exact Hbase]|].
    cbn [mean_color mbind Py.result_bind]. split.
    + rewrite paint_strips_size. reflexivity.
    + intros x y Hy. rewrite paint_strips_above; [apply Hbase, Hy| |exact Hy].
      intros i Hi. apply elem_of_range in Hi. lia.
  - destruct (Z.lt_ge_cases (height img) 4) as [Hh|Hh]; [left; exact Hh|].
    destruct (Z.le_gt_cases (width img) 0) as [Hw|Hw]; [right; exact Hw|].
    destruct (avg_color_of_ok img) as [c Hc]; [lia|lia|]. congruence.
Qed.

(** C7 as stated fails: on the 4 x 60 sample (band start 23, band height
    7 + 30) the base colour is grey 144 and the blend colour grey 127;
    the last gradient strip is grey 129 and the bottom of the band, rows
    31 to 59, keeps the base colour 144, not the blend colour. *)
Lemma remove_text_bottom_is_base_color :
  text_area_y_start_of (height Demo.small_photo) = 23
  /\ avg_color_of Demo.small_photo = Py.Ok (Demo.grey 144)
  /\ mean_color (blend_samples Demo.small_photo 23) = Py.Ok (Demo.grey 127)
  /\ exists img',
       remove_text_from_image Demo.small_photo "and happy newyear" = Py.Ok img'
       /\ map (fun y => getpixel img' 0 y) (Py.range 23 32)
          = map Demo.grey [144; 141; 139; 136; 134; 131; 129; 129; 144]
       /\ map (fun y => getpixel img' 0 y) (Py.range 32 60)
          = repeat (Demo.grey 144) 28.
Proof.
  split; [reflexivity|]. split; [reflexivity|]. split; [reflexivity|].
  eexists. split; [reflexivity|]. split; vm_compute; reflexivity.
Qed.

(** C7, amended.  When the smoothing pass runs (band start > 20) on an
    image with at least one column, the band is painted in one-row
    strips: row [start + i], for 0 <= i < n with n = int(0.12 * height),
    carries int(avg * (1 - i/n) + blend * (i/n)) per channel, evaluated
    in double precision as the script does.  The row after the last
    strip repeats that strip's colour, and the rows below it, down to
    the bottom of the image, keep the base colour.  On an 8-bit image
    (of height below 2^53) the top row of the band carries the base
    colour. *)
Theorem remove_text_from_image_gradient (img : Image) (text : string) :
  let n := text_area_height_of (height img) in
  let start := text_area_y_start_of (height img) in
  0 < width img -> 20 < start ->
  exists avg blend img',
    avg_color_of img = Py.Ok avg
    /\ mean_color (blend_samples img start) = Py.Ok blend
    /\ remove_text_from_image img text = Py.Ok img'
    /\ (forall x i, 0 <= x < width img -> 0 <= i < n ->
          getpixel img' x (start + i) = blended_color avg blend i n)
    /\ (forall x, 0 <= x < width img ->
          getpixel img' x (start + n) = blended_color avg blend (n - 1) n)
    /\ (forall x y, 0 <= x < width img -> start + n < y < height img ->
          getpixel img' x y = avg)
    /\ ((forall x y, valid_color (getpixel img x y)) ->
        height img < 2 ^ 53 ->
        forall x, 0 <= x < width img -> getpixel img' x start = avg).
Proof.
  intros n start Hw Hs.
  pose proof (band_start_gradient _ Hs) as Hn.
  pose proof (band_geometry (height img)) as Hg. fold n start in Hn, Hg.
  destruct (avg_color_of_ok img) as [avg Havg]; [exact Hw|lia|].
  destruct (mean_color_ok (blend_samples img start)) as [blend Hblend].
  { apply blend_samples_nonempty; lia. }
  exists avg, blend. unfold remove_text_from_image. fold n start.
  rewrite Havg. cbn [mbind Py.result_bind].
  destruct (Z.ltb_spec 20 start); [|lia].
  destruct (blend_samples img start) as [|s samples] eqn:Es.
  { exfalso. eapply blend_samples_nonempty; [| | |exact Es]; lia. }
  rewrite Hblend. cbn [mbind Py.result_bind].
  eexists. split; [reflexivity|]. split; [reflexivity|]. split; [reflexivity|].
  set (base := draw_rectangle img 0 start (width img) (height img) avg).
  assert (Hrows := paint_strips_rows avg blend n start base (Z.to_nat n)).
  rewrite Z2Nat.id in Hrows by lia.
  specialize (Hrows ltac:(cbn; lia)).
  assert (Hin : forall x y, 0 <= x < width img -> 0 <= y < height img ->
                            in_bounds base x y = true).
  { intros x y Hx Hy. unfold in_bounds; cbn.
    destruct (Z.leb_spec 0 x), (Z.ltb_spec x (width img)),
      (Z.leb_spec 0 y), (Z.ltb_spec y (height img)); first [lia | reflexivity]. }
  assert (Hrow : forall x i, 0 <= x < width img -> 0 <= i < n ->
            getpixel (fold_left (paint_strip avg blend n start)
                                (Py.range 0 n) base) x (start + i)
            = blended_color avg blend i n).
  { intros x i Hx Hi. rewrite Hrows, Hin by lia.
    destruct (Z.leb_spec start (start + i)); [|lia].
    destruct (Z.leb_spec (start + i) (start + n)); [|lia].
    destruct (Z.ltb_spec 0 n); [|lia]. cbn [andb]. f_equal. lia. }
  split; [exact Hrow|]. split; [|split].
  - intros x Hx. rewrite Hrows, Hin by lia.
    destruct (Z.leb_spec start (start + n)); [|lia].
    rewrite Z.leb_refl. destruct (Z.ltb_spec 0 n); [|lia]. cbn [andb].
    f_equal. lia.
  - intros x y Hx Hy. rewrite Hrows.
    destruct (Z.leb_spec y (start + n)); [lia|].
    rewrite andb_false_r. cbn [andb getpixel base draw_rectangle].
    fold (in_bounds img x y).
    assert (Hib : in_bounds img x y = true) by (apply (Hin x y); lia).
    rewrite Hib.
    destruct (Z.leb_spec 0 x), (Z.leb_spec x (width img)),
      (Z.leb_spec start y), (Z.leb_spec y (height img)); first [lia | reflexivity].
  - intros Hv Hh x Hx. rewrite <- (Z.add_0_r start) at 2.
    rewrite Hrow by lia. apply blended_color_0.
    + exact (avg_color_of_valid img avg Hv Havg).
    + eapply mean_color_valid; [|exact Hblend]. intros p Hp. rewrite <- Es in Hp.
      apply blend_samples_pixels in Hp as (u & v & ->). apply Hv.
    + assert (Hpos : 30 < height img) by (apply band_start_positive; lia).
      pose proof (text_area_height_bounds (height img) ltac:(lia)) as Hb.
      fold n in Hb. lia.
Qed.

Lemma remove_text_from_image_gradient_witness :
  exists avg blend img',
    avg_color_of Demo.small_photo = Py.Ok avg
    /\ mean_color (blend_samples Demo.small_photo 23) = Py.Ok blend
    /\ remove_text_from_image Demo.small_photo "and happy newyear" = Py.Ok img'
    /\ getpixel img' 1 (23 + 3) = blended_color avg blend 3 7
    /\ getpixel img' 1 59 = avg
    /\ getpixel img' 1 23 = avg.
Proof.
  destruct (remove_text_from_image_gradient Demo.small_photo "and happy newyear")
    as (avg & blend & img' & Ha & Hb & Hr & Hrow & _ & Hrest & Htop).
  - reflexivity.
  - reflexivity.
  - exists avg, blend, img'. split; [exact Ha|]. split; [exact Hb|].
    split; [exact Hr|]. split; [|split].
    + apply (Hrow 1 3); split; reflexivity || discriminate.
    + apply (Hrest 1 59); split; reflexivity || discriminate.
    + apply (Htop ltac:(intros x y; unfold valid_color; cbn;
                        destruct (y <? 10); cbn; lia)
                  ltac:(reflexivity) 1).
      split; reflexivity || discriminate.
Defined.

(** The last strip can also land on the blend colour: rounding decides. *)
Example blended_color_last_strip :
  blended_color (Demo.grey 144) (Demo.grey 127) 6 7 = Demo.grey 129
  /\ blended_color (Demo.grey 128) (Demo.grey 127) 6 7 = Demo.grey 127
  /\ blended_color (Demo.grey 255) (Demo.grey 255) 3 7 = Demo.grey 254.
Proof. vm_compute. repeat split. Qed.

(** * Further properties *)

(** ** Further properties of the File Locator *)

Lemma first_named_app p l l' :
  first_named p (l ++ l')
  = match first_named p l with
    | Some fp => Some fp
    | None => first_named p l'
    end.
Proof.
  unfold first_named. induction l as [|c l IH]; cbn; [reflexivity|].
  destruct (p c.2); cbn; [reflexivity|exact IH].
Qed.

Lemma visit_file_invariant root st f :
  scan_invariant st -> scan_invariant (visit_file root st f).
Proof.
  destruct st as [files all_images]. unfold scan_invariant, visit_file.
  cbn [fst snd]. intros (Hc & Hl & Hother).
  destruct (_ || _); [auto|].
  destruct (is_image_name f); [|auto].
  set (fp := os_path_join root f). set (nm := Py.lower f).
  destruct (is_christmas_name nm) eqn:Ec.
  - assert (Hl' : first_named is_logo_only_name (all_images ++ [(fp, nm)])
                  = first_named is_logo_only_name all_images).
    { rewrite first_named_app.
      destruct (first_named is_logo_only_name all_images); [reflexivity|].
      unfold first_named, is_logo_only_name; cbn. rewrite Ec. reflexivity. }
    destruct (files !! "christmas") as [old|] eqn:Eold; cbn [fst snd].
    + rewrite first_named_app, <- Hc, Hl'. auto.
    + rewrite first_named_app, <- Hc, Hl'. repeat split.
      * rewrite lookup_insert_eq. unfold first_named; cbn. rewrite Ec. reflexivity.
      * rewrite lookup_insert_ne by discriminate. exact Hl.
      * intros k Hk1 Hk2. rewrite lookup_insert_ne by congruence. auto.
  - assert (Hc' : first_named is_christmas_name (all_images ++ [(fp, nm)])
                  = first_named is_christmas_name all_images).
    { rewrite first_named_app.
      destruct (first_named is_christmas_name all_images); [reflexivity|].
      unfold first_named; cbn. rewrite Ec. reflexivity. }
    destruct (is_logo_name nm) eqn:El; cbn [andb].
    + destruct (files !! "logo") as [old|] eqn:Eold.
      * rewrite bool_decide_eq_false_2 by discriminate. cbn [fst snd].
        rewrite Hc', first_named_app, <- Hl. auto.
      * rewrite bool_decide_eq_true_2 by reflexivity. cbn [fst snd].
        rewrite Hc', first_named_app, <- Hl. repeat split.
        -- rewrite lookup_insert_ne by discriminate. exact Hc.
        -- rewrite lookup_insert_eq. unfold first_named, is_logo_only_name; cbn.
           rewrite Ec, El. reflexivity.
        -- intros k Hk1 Hk2. rewrite lookup_insert_ne by congruence. auto.
    + cbn [fst snd]. rewrite Hc', first_named_app, <- Hl. repeat split; auto.
      destruct (files !! "logo"); [reflexivity|].
      unfold first_named, is_logo_only_name; cbn. rewrite Ec, El. reflexivity.
Qed.

Lemma scan_invariant_holds os : scan_invariant (scan os).
Proof.
  unfold scan.
  assert (H0 : scan_invariant (∅, [])).
  { repeat split; intros; apply lookup_empty. }
  revert H0. generalize ((∅, []) : scan_state) as st.
  induction (os_walk _ _ _) as [|e es IH]; intros st Hst; cbn; [exact Hst|].
  apply IH. unfold visit_dir. generalize (e.1) as root. intros root.
  clear IH. revert st Hst.
  induction (e.2) as [|f fs IHf]; intros st Hst; cbn; [exact Hst|].
  apply IHf, visit_file_invariant, Hst.
Qed.

(** The second pass never replaces what the scan assigned. *)
Lemma assign_roles_keeps os st k v :
  st.1 !! k = Some v -> assign_roles os st !! k = Some v.
Proof.
  destruct st as [files all_images]. cbn [fst]. intros Hk. unfold assign_roles.
  destruct all_images as [|c cs]; [exact Hk|].
  set (files1 := match files !! "christmas" with
                 | Some _ => files
                 | None => _
                 end).
  assert (H1 : files1 !! k = Some v).
  { subst files1. destruct (files !! "christmas") eqn:E; [exact Hk|].
    destruct (Py.sort_reverse _) as [|[sz p] t]; [exact Hk|].
    rewrite lookup_insert_ne; [exact Hk|]. intros <-. congruence. }
  destruct (files1 !! "logo") eqn:E; [exact H1|].
  destruct (pick_logo _ _ _); [|exact H1].
  rewrite lookup_insert_ne; [exact H1|]. intros <-. congruence.
Qed.

(** X1. First match wins for the base image: when some candidate is
    named like a Christmas image, the role [christmas] goes to the first
    such candidate in walk order, whatever the file sizes. *)
Theorem find_image_files_first_christmas (os : OS) (p : string) :
  first_named is_christmas_name (scan os).2 = Some p ->
  find_image_files os !! "christmas" = Some p.
Proof.
  intros Hp. apply assign_roles_keeps.
  destruct (scan_invariant_holds os) as (Hc & _). rewrite Hc. exact Hp.
Qed.

(** X2. First match wins for the logo: the role [logo] goes to the
    first candidate whose name contains "logo" or "nimex" and that was
    not taken as a Christmas image, even when the fallback of lines
    62-72 would pick another file. *)
Theorem find_image_files_first_logo (os : OS) (p : string) :
  first_named is_logo_only_name (scan os).2 = Some p ->
  find_image_files os !! "logo" = Some p.
Proof.
  intros Hp. apply assign_roles_keeps.
  destruct (scan_invariant_holds os) as (_ & Hl & _). rewrite Hl. exact Hp.
Qed.

Lemma pick_logo_spec os christmas all_images p :
  pick_logo os christmas all_images = Some p ->
  (exists nm, (p, nm) ∈ all_images)
  /\ Some p <> christmas
  /\ exists sz, getsize os p = Some sz /\ sz < 5 * 1024 * 1024.
Proof.
  induction all_images as [|[fp nm] rest IH]; cbn; [discriminate|].
  assert (Hrest : pick_logo os christmas rest = Some p ->
                  (exists nm0, (p, nm0) ∈ (fp, nm) :: rest)
                  /\ Some p <> christmas
                  /\ exists sz, getsize os p = Some sz /\ sz < 5 * 1024 * 1024).
  { intros H. destruct (IH H) as ([nm0 Hin] & Hne & Hsz).
    split; [exists nm0; apply elem_of_cons; right; exact Hin|]. auto. }
  destruct (bool_decide (Some fp ≠ christmas)) eqn:Eb; [|exact Hrest].
  destruct (getsize os fp) as [sz|] eqn:Es; [|exact Hrest].
  destruct (Z.ltb_spec sz (5 * 1024 * 1024)); [|exact Hrest].
  intros [= <-]. split; [exists nm; apply elem_of_cons; left; reflexivity|].
  split; [apply bool_decide_eq_true in Eb; exact Eb|]. eauto.
Qed.

Lemma first_named_candidate p all_images fp :
  first_named p all_images = Some fp -> exists nm, (fp, nm) ∈ all_images.
Proof.
  unfold first_named. destruct (List.find _ _) as [[fp' nm]|] eqn:E; [|discriminate].
  intros [= <-]. apply find_some in E as [Hin _]. exists nm.
  apply list_elem_of_In, Hin.
Qed.

(** X3. The mapping has no other keys than [christmas] and [logo], and
    each value is the path of a candidate found by the walk. *)
Theorem find_image_files_entries (os : OS) (k v : string) :
  find_image_files os !! k = Some v ->
  (k = "christmas" \/ k = "logo") /\ exists nm, (v, nm) ∈ (scan os).2.
Proof.
  unfold find_image_files.
  destruct (scan_invariant_holds os) as (Hc & Hl & Hother).
  destruct (scan os) as [files all_images]. cbn [fst snd] in *.
  assert (Hscan : forall k v, files !! k = Some v ->
            (k = "christmas" \/ k = "logo") /\ exists nm, (v, nm) ∈ all_images).
  { intros k0 v0 H0.
    destruct (decide (k0 = "christmas")) as [-> | N1].
    { split; [left; reflexivity|]. rewrite Hc in H0.
      eapply first_named_candidate, H0. }
    destruct (decide (k0 = "logo")) as [-> | N2].
    { split; [right; reflexivity|]. rewrite Hl in H0.
      eapply first_named_candidate, H0. }
    rewrite Hother in H0 by assumption. discriminate. }
  unfold assign_roles. destruct all_images as [|c cs]; [apply Hscan|].
  set (cands := c :: cs) in *.
  set (files1 := match files !! "christmas" with
                 | Some _ => files
                 | None => _
                 end).
  assert (H1 : forall k v, files1 !! k = Some v ->
            (k = "christmas" \/ k = "logo") /\ exists nm, (v, nm) ∈ cands).
  { subst files1. destruct (files !! "christmas"); [exact Hscan|].
    destruct (Py.sort_reverse _) as [|[sz p] t] eqn:Es; [exact Hscan|].
    intros k0 v0. rewrite lookup_insert. case_decide as Ek.
    - intros [= <-]. split; [left; symmetry; exact Ek|].
      assert (Hin : (sz, p) ∈ image_sizes os cands).
      { apply elem_of_sort_reverse. rewrite Es. apply elem_of_cons. left. reflexivity. }
      apply elem_of_image_sizes in Hin as [Hin _]. exact Hin.
    - apply Hscan. }
  destruct (files1 !! "logo"); [apply H1|].
  destruct (pick_logo _ _ _) as [p|] eqn:Ep; [|apply H1].
  rewrite lookup_insert. case_decide as Ek.
  - intros [= <-]. split; [right; symmetry; exact Ek|].
    apply pick_logo_spec in Ep as [Hin _]. exact Hin.
  - apply H1.
Qed.

(** X4. A workspace without candidate images yields the empty mapping. *)
Theorem find_image_files_no_candidates (os : OS) :
  (scan os).2 = [] -> find_image_files os = ∅.
Proof.
  intros Hnone. unfold find_image_files.
  destruct (scan_invariant_holds os) as (Hc & Hl & Hother).
  destruct (scan os) as [files all_images]. cbn [fst snd] in *. subst all_images.
  cbn. apply map_eq. intros k. rewrite lookup_empty.
  destruct (decide (k = "christmas")) as [-> | N1]; [exact Hc|].
  destruct (decide (k = "logo")) as [-> | N2]; [exact Hl|].
  apply Hother; assumption.
Qed.

(** X5. When no candidate is named like a logo, the logo chosen by the
    fallback of lines 62-72 is never the base image, and its size is
    below 5 MiB. *)
Theorem find_image_files_fallback_logo (os : OS) (p : string) :
  first_named is_logo_only_name (scan os).2 = None ->
  find_image_files os !! "logo" = Some p ->
  find_image_files os !! "christmas" <> Some p
  /\ (exists nm, (p, nm) ∈ (scan os).2)
  /\ exists sz, getsize os p = Some sz /\ sz < 5 * 1024 * 1024.
Proof.
  unfold find_image_files.
  destruct (scan_invariant_holds os) as (_ & Hl & _).
  destruct (scan os) as [files all_images]. cbn [fst snd] in *.
  intros Hnone. rewrite Hnone in Hl. unfold assign_roles.
  destruct all_images as [|c cs]; [rewrite Hl; discriminate|].
  set (cands := c :: cs) in *.
  set (files1 := match files !! "christmas" with
                 | Some _ => files
                 | None => _
                 end).
  assert (H1 : files1 !! "logo" = None).
  { subst files1. destruct (files !! "christmas"); [exact Hl|].
    destruct (Py.sort_reverse _) as [|[sz q] t]; [exact Hl|].
    rewrite lookup_insert_ne by discriminate. exact Hl. }
  rewrite H1. destruct (pick_logo _ _ _) as [q|] eqn:Ep.
  - rewrite lookup_insert_eq. intros [= ->].
    rewrite lookup_insert_ne by discriminate.
    apply pick_logo_spec in Ep as (Hin & Hne & Hsz).
    split; [congruence|]. split; assumption.
  - rewrite H1. discriminate.
Qed.

(** Hidden folders do not change the walk. *)
Lemma os_walk_prune_hidden (t : dirtree) :
  forall root,
    os_walk (fun d => negb (hidden d)) root (prune_hidden t)
    = os_walk (fun d => negb (hidden d)) root t.
Proof.
  revert t. fix IH 1. intros [filenames subdirs] root. cbn. f_equal.
  induction subdirs as [|[d sub] rest IHrest]; [reflexivity|].
  destruct (hidden d) eqn:Eh; cbn; rewrite ?Eh; cbn.
  - exact IHrest.
  - rewrite IH, IHrest. reflexivity.
Qed.

(** The second pass reads the operating system through file sizes only. *)
Lemma assign_roles_getsize os1 os2 st :
  (forall p, getsize os1 p = getsize os2 p) ->
  assign_roles os1 st = assign_roles os2 st.
Proof.
  intros Hsz. destruct st as [files all_images]. unfold assign_roles.
  assert (Hsizes : forall l, image_sizes os1 l = image_sizes os2 l).
  { intros l. unfold image_sizes. induction l as [|[fp nm] l IH]; cbn;
      [reflexivity|]. rewrite Hsz, IH. reflexivity. }
  assert (Hpick : forall c l, pick_logo os1 c l = pick_logo os2 c l).
  { intros c l. induction l as [|[fp nm] l IH]; cbn; [reflexivity|].
    rewrite Hsz, IH. reflexivity. }
  destruct all_images as [|c cs]; [reflexivity|].
  rewrite Hsizes. destruct (files !! "christmas");
    destruct (_ !! "logo"); try reflexivity; rewrite Hpick; reflexivity.
Qed.

(** X6. Hidden folders are skipped with everything below them: removing
    every folder whose name starts with "." from the tree, at any depth,
    leaves the Locator's result unchanged. *)
Theorem find_image_files_ignores_hidden_dirs (os : OS) :
  find_image_files (with_workspace os (prune_hidden (workspace os)))
  = find_image_files os.
Proof.
  unfold find_image_files, scan. cbn [workspace with_workspace].
  rewrite os_walk_prune_hidden. apply assign_roles_getsize. reflexivity.
Qed.

Lemma find_image_files_first_christmas_witness :
  find_image_files Samples.festive_os !! "christmas"
  = Some "/workspace/b_christmas.jpg".
Proof.
  apply (find_image_files_first_christmas Samples.festive_os). reflexivity.
Defined.

Lemma find_image_files_first_logo_witness :
  find_image_files Samples.festive_os !! "logo"
  = Some "/workspace/Christmas_Logo.png".
Proof.
  apply (find_image_files_first_logo Samples.festive_os). reflexivity.
Defined.

Lemma find_image_files_entries_witness :
  exists nm, ("/workspace/a.PNG", nm) ∈ (scan Demo.plain_os).2.
Proof.
  apply (find_image_files_entries Demo.plain_os "logo" "/workspace/a.PNG").
  reflexivity.
Defined.

Lemma find_image_files_no_candidates_witness :
  find_image_files Samples.bare_os = ∅.
Proof.
  apply (find_image_files_no_candidates Samples.bare_os). reflexivity.
Defined.

Lemma find_image_files_fallback_logo_witness :
  find_image_files Demo.plain_os !! "christmas" <> Some "/workspace/a.PNG"
  /\ (exists nm, ("/workspace/a.PNG", nm) ∈ (scan Demo.plain_os).2)
  /\ exists sz, getsize Demo.plain_os "/workspace/a.PNG" = Some sz
                /\ sz < 5 * 1024 * 1024.
Proof.
  apply (find_image_files_fallback_logo Demo.plain_os "/workspace/a.PNG");
    reflexivity.
Defined.

(** ** Further properties of the Text Eraser *)

Lemma remove_text_from_image_ok (img : Image) (text : string) :
  0 < width img -> 4 <= height img ->
  exists img', remove_text_from_image img text = Py.Ok img'
               /\ size img' = size img.
Proof.
  intros Hw Hh. destruct (avg_color_of_ok img Hw Hh) as [avg Havg].
  unfold remove_text_from_image. rewrite Havg. cbn [mbind Py.result_bind].
  destruct (20 <? _); [|eexists; split; reflexivity].
  destruct (blend_samples _ _) as [|s samples]; [eexists; split; reflexivity|].
  cbn [mean_color mbind Py.result_bind]. eexists. split; [reflexivity|].
  rewrite paint_strips_size. reflexivity.
Qed.

(** X9. The eraser fails on an image fewer than four rows high: the
    fallback sample [img_array[:height//4, :]] is empty, its mean is NaN,
    and [int] raises ValueError before anything is drawn. *)
Theorem remove_text_from_image_too_short (img : Image) (text : string) :
  0 <= height img < 4 ->
  remove_text_from_image img text
  = Py.Raise (Py.ValueError "cannot convert float NaN to integer").
Proof.
  intros Hh. unfold remove_text_from_image, avg_color_of, sample_regions.
  pose proof (text_area_height_bounds (height img) ltac:(lia)) as Hb.
  assert (Hys : text_area_y_start_of (height img) < 0)
    by (unfold text_area_y_start_of; lia).
  destruct (Z.ltb_spec 50 (text_area_y_start_of (height img))); [lia|].
  destruct (Z.ltb_spec 0 (text_area_y_start_of (height img))); [lia|].
  cbn [app]. rewrite (Z.div_small (height img) 4) by lia.
  unfold Py.slice_index. cbn [Z.ltb Z.compare].
  rewrite Z.min_l by lia. reflexivity.
Qed.

(** X10. When the smoothing pass does not run (band start <= 20, that
    is, images up to 56 rows high), the whole band is one flat colour,
    the sampled average; on an image of at most 34 rows the band start
    is <= 0 and the entire image is painted over. *)
Theorem remove_text_from_image_flat_fill (img : Image) (text : string) :
  0 < width img -> 4 <= height img ->
  text_area_y_start_of (height img) <= 20 ->
  exists avg img',
    avg_color_of img = Py.Ok avg
    /\ remove_text_from_image img text = Py.Ok img'
    /\ (forall x y, 0 <= x < width img -> 0 <= y < height img ->
                    text_area_y_start_of (height img) <= y ->
                    getpixel img' x y = avg)
    /\ (height img <= 34 ->
        forall x y, 0 <= x < width img -> 0 <= y < height img ->
                    getpixel img' x y = avg).
Proof.
  intros Hw Hh Hys.
  destruct (avg_color_of_ok img Hw Hh) as [avg Havg].
  exists avg. unfold remove_text_from_image. rewrite Havg.
  cbn [mbind Py.result_bind].
  destruct (Z.ltb_spec 20 (text_area_y_start_of (height img))); [lia|].
  eexists. split; [reflexivity|]. split; [reflexivity|].
  assert (Hfill : forall x y, 0 <= x < width img -> 0 <= y < height img ->
            text_area_y_start_of (height img) <= y ->
            getpixel (draw_rectangle img 0 (text_area_y_start_of (height img))
                                     (width img) (height img) avg) x y = avg).
  { intros x y Hx Hy Hband. cbn. unfold in_bounds.
    destruct (Z.leb_spec 0 x), (Z.ltb_spec x (width img)), (Z.leb_spec 0 y),
      (Z.ltb_spec y (height img)), (Z.leb_spec x (width img)),
      (Z.leb_spec (text_area_y_start_of (height img)) y),
      (Z.leb_spec y (height img)); first [lia | reflexivity]. }
  split; [exact Hfill|].
  intros Hsmall x y Hx Hy. apply Hfill; [exact Hx|exact Hy|].
  assert (text_area_y_start_of (height img) <= 0); [|lia].
  unfold text_area_y_start_of. rewrite text_area_height_eq by lia.
  assert (height img - 30 <= 12 * height img / 100)
    by (apply Z.div_le_lower_bound; lia).
  lia.
Qed.

Lemma remove_text_from_image_too_short_witness :
  remove_text_from_image (Demo.two_tone 5 3 1) "and happy newyear"
  = Py.Raise (Py.ValueError "cannot convert float NaN to integer").
Proof.
  apply (remove_text_from_image_too_short (Demo.two_tone 5 3 1)). cbn. lia.
Defined.

Lemma remove_text_from_image_flat_fill_witness :
  exists avg img',
    avg_color_of (Demo.two_tone 4 30 10) = Py.Ok avg
    /\ remove_text_from_image (Demo.two_tone 4 30 10) "and happy newyear"
       = Py.Ok img'
    /\ getpixel img' 2 0 = avg /\ getpixel img' 3 29 = avg.
Proof.
  destruct (remove_text_from_image_flat_fill (Demo.two_tone 4 30 10)
              "and happy newyear")
    as (avg & img' & Ha & Hr & _ & Hall).
  - reflexivity.
  - discriminate.
  - vm_compute. discriminate.
  - exists avg, img'. split; [exact Ha|]. split; [exact Hr|].
    assert (Hsmall : height (Demo.two_tone 4 30 10) <= 34) by discriminate.
    split; apply (Hall Hsmall); cbn; lia.
Defined.

(** ** Further properties of the Logo Compositor *)

Lemma resize_size `{Pillow} (img r : Image) (w h : Z) :
  resize img w h = Py.Ok r -> size r = (w, h) /\ mode r = mode img.
Proof.
  unfold resize. destruct ((w =? width img) && (h =? height img)) eqn:E.
  - intros [= <-]. apply andb_true_iff in E as [Ew Eh].
    apply Z.eqb_eq in Ew, Eh. unfold size. subst. split; reflexivity.
  - destruct (_ || _); [discriminate|]. intros [= <-]. split; reflexivity.
Qed.

(** What the [try] block returns when it returns. *)
Lemma add_logo_try_ok `{Pillow} os base_img logo_path position img box :
  add_logo_try os base_img logo_path position = Py.Ok (img, box) ->
  exists logo,
    size logo = (box.1.2, box.2)
    /\ img = paste base_img logo box.1.1.1 box.1.1.2 (Some logo).
Proof.
  unfold add_logo_try.
  destruct (image_open os logo_path) as [logo0|e]; cbn [mbind Py.result_bind];
    [|discriminate].
  destruct (if bool_decide _ then _ else _) as [logo1|e];
    cbn [mbind Py.result_bind]; [|discriminate].
  unfold size at 1.
  destruct (float_truediv _ _) as [ratio|e]; cbn [mbind Py.result_bind];
    [|discriminate].
  destruct (load os logo_path) as [[]|e]; cbn [mbind Py.result_bind];
    [|discriminate].
  destruct (resize _ _ _) as [logo|e] eqn:Er; cbn [mbind Py.result_bind];
    [|discriminate].
  apply resize_size in Er as [Er _].
  repeat destruct (String.eqb position _);
    intros [= <- <-]; exists logo; split; try exact Er; reflexivity.
Qed.

(** X11. The Compositor either pastes: then nothing is printed, the
    image keeps its size and mode, and every pixel outside the returned
    box (x, y, w, h) is untouched; or it fails: then it returns the very
    base image, a null box, and exactly one line "Error adding logo: ...". *)
Theorem add_logo_to_image_contained `{Pillow} (os : OS) (base_img : Image)
        (logo_path position : string) :
  let r := add_logo_to_image os base_img logo_path position in
  match r.1.2 with
  | Some (x, y, w, h) =>
      r.2 = []
      /\ size r.1.1 = size base_img /\ mode r.1.1 = mode base_img
      /\ forall u v, ~ (x <= u < x + w /\ y <= v < y + h) ->
                     getpixel r.1.1 u v = getpixel base_img u v
  | None =>
      r.1.1 = base_img
      /\ exists msg, r.2 = ["Error adding logo: " +:+ msg]
  end.
Proof.
  cbv zeta. unfold add_logo_to_image.
  destruct (add_logo_try os base_img logo_path position) as [[img box]|e] eqn:E;
    cbn [fst snd].
  - destruct (add_logo_try_ok _ _ _ _ _ _ E) as (logo & Hsz & ->).
    destruct box as [[[x y] w] h]. cbn [fst snd] in *.
    injection Hsz as Hw Hh.
    split; [reflexivity|]. split; [reflexivity|]. split; [reflexivity|].
    intros u v Hout. cbn. unfold in_bounds at 2. rewrite Hw, Hh.
    destruct (Z.leb_spec 0 (u - x)), (Z.ltb_spec (u - x) w),
      (Z.leb_spec 0 (v - y)), (Z.ltb_spec (v - y) h);
      cbn [andb]; rewrite ?andb_false_r; try reflexivity.
    exfalso. apply Hout. lia.
  - split; [reflexivity|]. eexists. reflexivity.
Qed.

Lemma logo_width_narrow (base_width : Z) :
  0 <= base_width < 7 -> Py.int (inject_Z base_width * 0.15)%Q = 0.
Proof.
  intros Hb. unfold Py.int. cbn. change (Z.pos (1 * 100)) with 100.
  rewrite Z.quot_div_nonneg by lia. apply Z.div_small. lia.
Qed.

(** X12. On a base image less than 7 pixels wide the logo would be
    0 pixels wide (int(0.15 * width) = 0): the Compositor never pastes
    and always returns the null box, whatever the logo. *)
Theorem add_logo_to_image_narrow_base `{Pillow} (os : OS) (base_img : Image)
        (logo_path position : string) :
  0 <= width base_img < 7 ->
  (add_logo_to_image os base_img logo_path position).1.2 = None
  /\ (add_logo_to_image os base_img logo_path position).1.1 = base_img.
Proof.
  intros Hb. unfold add_logo_to_image.
  assert (E : exists e, add_logo_try os base_img logo_path position = Py.Raise e).
  { unfold add_logo_try.
    destruct (image_open os logo_path) as [logo0|e]; cbn [mbind Py.result_bind];
      [|eauto].
    assert (Hconv : forall r : Py.result Image,
              r = (if bool_decide (mode logo0 ≠ "RGBA")
                   then _ ← load os logo_path; Py.Ok (convert logo0 "RGBA")
                   else Py.Ok logo0) ->
              (exists e, r = Py.Raise e)
              \/ exists logo, r = Py.Ok logo /\ width logo = width logo0).
    { intros r ->. destruct (bool_decide _); [|right; eauto].
      destruct (load os logo_path) as [[]|e]; cbn [mbind Py.result_bind];
        [right|left]; eauto. }
    destruct (Hconv _ eq_refl) as [[e ->] | (logo & -> & Hlw)];
      cbn [mbind Py.result_bind]; [eauto|].
    unfold size. rewrite (logo_width_narrow _ Hb). unfold float_truediv.
    destruct (Z.eqb_spec (width logo) 0) as [E0|N0]; cbn [mbind Py.result_bind];
      [eauto|].
    destruct (load os logo_path) as [[]|e]; cbn [mbind Py.result_bind];
      [|eauto].
    unfold resize.
    destruct (Z.eqb_spec 0 (width logo)) as [E0|_]; [congruence|].
    cbn [andb orb Z.ltb Z.compare mbind Py.result_bind]. eauto. }
  destruct E as [e ->]. split; reflexivity.
Qed.

(** X13. A position that is none of 'bottom_left', 'bottom_right',
    'top_left' is treated as top-right: when the logo is pasted, its box
    starts 40 pixels from the top and ends 40 pixels from the right
    edge.  No position name is rejected. *)
Theorem add_logo_to_image_other_position `{Pillow} (os : OS) (base_img : Image)
        (logo_path position : string) (x y w h : Z) :
  position <> "bottom_left" -> position <> "bottom_right" ->
  position <> "top_left" ->
  (add_logo_to_image os base_img logo_path position).1.2 = Some (x, y, w, h) ->
  x = width base_img - w - 40 /\ y = 40.
Proof.
  intros N1 N2 N3. unfold add_logo_to_image.
  destruct (add_logo_try os base_img logo_path position) as [[img box]|e] eqn:E;
    cbn [fst snd]; [|discriminate].
  intros [= ->]. unfold add_logo_try in E.
  destruct (image_open os logo_path) as [logo0|e]; cbn [mbind Py.result_bind] in E;
    [|discriminate].
  destruct (if bool_decide _ then _ else _) as [logo1|e];
    cbn [mbind Py.result_bind] in E; [|discriminate].
  unfold size in E.
  destruct (float_truediv _ _) as [ratio|e]; cbn [mbind Py.result_bind] in E;
    [|discriminate].
  destruct (load os logo_path) as [[]|e]; cbn [mbind Py.result_bind] in E;
    [|discriminate].
  destruct (resize _ _ _) as [logo|e]; cbn [mbind Py.result_bind] in E;
    [|discriminate].
  apply String.eqb_neq in N1, N2, N3. rewrite N1, N2, N3 in E.
  injection E as _ <- <- <- _. split; reflexivity.
Qed.

Lemma add_logo_to_image_narrow_base_witness :
  (add_logo_to_image (H := Demo.box_pillow) (Demo.logo_os Demo.square_logo)
                     (Demo.two_tone 6 60 10) "/logos/logo.png" "bottom_left").1.2
  = None.
Proof.
  apply (add_logo_to_image_narrow_base (H := Demo.box_pillow)
           (Demo.logo_os Demo.square_logo) (Demo.two_tone 6 60 10)).
  cbn. lia.
Defined.

Lemma add_logo_to_image_other_position_witness :
  980 = width Demo.photo - 180 - 40 /\ 40 = 40.
Proof.
  apply (add_logo_to_image_other_position (H := Demo.box_pillow)
           (Demo.logo_os Demo.square_logo) Demo.photo "/logos/logo.png"
           "middle" 980 40 180 180); try discriminate.
  reflexivity.
Defined.

(** ** Further properties of the Caption Renderer *)

(** X14. The outline: [draw.text] is called 49 times.  The first 48
    calls are black, each at an offset of at most 3 pixels in x and in y
    from the caption position and never at that position itself; the last
    call is the white caption. *)
Theorem text_calls_outline `{Pillow} (img : Image) (text position : string)
        (logo_info : option bbox) :
  exists xy outline,
    text_calls img text position logo_info = outline ++ [mkCall xy text_color]
    /\ length outline = 48%nat
    /\ Forall (fun c =>
                 fill c = outline_color
                 /\ at_xy c <> xy
                 /\ Z.abs ((at_xy c).1 - xy.1) <= 3
                 /\ Z.abs ((at_xy c).2 - xy.2) <= 3) outline.
Proof.
  unfold text_calls, size.
  destruct (String.eqb position "below_logo"),
    logo_info as [[[[x y] logo_w] logo_h]|]; cbv beta iota zeta.
  all: match goal with
       | |- context [mkCall (?tx, ?ty) text_color] =>
           exists (tx, ty); generalize tx as text_x; generalize ty as text_y
       end.
  all: intros text_y text_x; eexists; split; [reflexivity|].
  all: split; [reflexivity|].
  all: change (Py.range (- 3) (3 + 1)) with [-3; -2; -1; 0; 1; 2; 3].
  all: cbn [flat_map app Z.eqb negb orb].
  all: repeat (apply Forall_cons; split;
               [cbn [fill at_xy fst snd]; split; [reflexivity|];
                split; [intros [= ]; lia | split; lia]|]).
  all: constructor.
Qed.

(** X15. In 'center_bottom' mode the caption is centred whatever the
    logo box: its left edge is at (width - text_width) // 2, so the left
    and right margins differ by at most one pixel, and its top is 120
    pixels above the bottom edge. *)
Theorem caption_center_bottom_margins `{Pillow} (img : Image) (text : string)
        (logo_info : option bbox) :
  exists x,
    caption_xy img text "center_bottom" logo_info = Some (x, height img - 120)
    /\ 0 <= (width img - (x + text_width_of img text)) - x <= 1.
Proof.
  exists ((width img - text_width_of img text) / 2). split.
  - eapply caption_xy_last. reflexivity.
  - pose proof (Z.div_mod (width img - text_width_of img text) 2 ltac:(lia)).
    pose proof (Z.mod_pos_bound (width img - text_width_of img text) 2 ltac:(lia)).
    lia.
Qed.

(** ** Further properties of the Canvas Formatter *)

Lemma scale_back (n target : Z) :
  0 < n -> 0 <= target ->
  Py.int (inject_Z n * (inject_Z target / inject_Z n))%Q = target.
Proof.
  intros Hn Ht. rewrite <- (int_inject target) at 2. apply int_comp.
  field. intros E. change 0%Q with (inject_Z 0) in E.
  apply (proj1 (inject_Z_injective n 0)) in E. lia.
Qed.

Lemma scale_cross (m n target : Z) :
  0 < n -> 0 <= m -> 0 <= target ->
  Py.int (inject_Z m * (inject_Z target / inject_Z n))%Q = target * m / n.
Proof.
  intros Hn Hm Ht. rewrite <- int_div by lia. apply int_comp.
  rewrite inject_Z_mult. field. intros E. change 0%Q with (inject_Z 0) in E.
  apply (proj1 (inject_Z_injective n 0)) in E. lia.
Qed.

Lemma scale_order (w h : Z) :
  0 < w -> 0 < h ->
  Qle_bool (inject_Z 627 / inject_Z h) (inject_Z 1200 / inject_Z w)
  = (627 * w <=? 1200 * h).
Proof.
  intros Hw Hh.
  assert (Hw' : (0 < inject_Z w)%Q)
    by (change 0%Q with (inject_Z 0); rewrite <- Zlt_Qlt; exact Hw).
  assert (Hh' : (0 < inject_Z h)%Q)
    by (change 0%Q with (inject_Z 0); rewrite <- Zlt_Qlt; exact Hh).
  assert (Hnw : ~ inject_Z w == 0) by (intros E; rewrite E in Hw'; exact (Qlt_irrefl _ Hw')).
  assert (Hnh : ~ inject_Z h == 0) by (intros E; rewrite E in Hh'; exact (Qlt_irrefl _ Hh')).
  assert (Hiff : (inject_Z 627 / inject_Z h <= inject_Z 1200 / inject_Z w)%Q
                 <-> 627 * w <= 1200 * h).
  { rewrite <- (Qmult_le_r _ _ (inject_Z h * inject_Z w))
      by (apply Qmult_lt_0_compat; assumption).
    assert (E1 : (inject_Z 627 / inject_Z h * (inject_Z h * inject_Z w)
                  == inject_Z (627 * w))%Q)
      by (rewrite inject_Z_mult; field; exact Hnh).
    assert (E2 : (inject_Z 1200 / inject_Z w * (inject_Z h * inject_Z w)
                  == inject_Z (1200 * h))%Q)
      by (rewrite inject_Z_mult; field; exact Hnw).
    rewrite E1, E2, <- Zle_Qle. reflexivity. }
  destruct (Z.leb_spec (627 * w) (1200 * h)) as [Hle|Hgt].
  - apply Qle_bool_iff, Hiff, Hle.
  - destruct (Qle_bool _ _) eqn:E; [|reflexivity].
    apply Qle_bool_iff, Hiff in E. lia.
Qed.

(** [resized_size], which is in exact arithmetic, fits the canvas
    exactly along one axis. *)
Lemma resized_size_formula (img : Image) :
  0 < width img -> 0 < height img ->
  resized_size img
  = Py.Ok (if 627 * width img <=? 1200 * height img
           then (1200, 1200 * height img / width img)
           else (627 * width img / height img, 627)).
Proof.
  intros Hw Hh. unfold resized_size, size, Py.truediv, linkedin_width, linkedin_height.
  destruct (Z.eqb_spec (width img) 0); [lia|].
  destruct (Z.eqb_spec (height img) 0); [lia|].
  cbn [mbind Py.result_bind]. unfold Py.max.
  rewrite (scale_order _ _ Hw Hh).
  destruct (627 * width img <=? 1200 * height img).
  - rewrite scale_back, scale_cross by lia. reflexivity.
  - rewrite scale_back, scale_cross by lia. reflexivity.
Qed.

(** Shape of whatever the formatter returns. *)
Lemma format_as_linkedin_post_shape `{Pillow} (img post : Image) :
  format_as_linkedin_post img = Py.Ok post ->
  size post = (1200, 627) /\ mode post = "RGB".
Proof.
  unfold format_as_linkedin_post.
  destruct (resized_size img) as [[nw nh]|e]; cbn [mbind Py.result_bind];
    [|discriminate].
  destruct (resize img nw nh) as [r|e]; cbn [mbind Py.result_bind];
    [|discriminate].
  intros [= <-]. split; reflexivity.
Qed.

(** X18. An image that already is 1200 x 627 passes through unchanged:
    the post has, at every position, the pixel of the input.  In
    particular formatting twice is the same as formatting once. *)
Theorem format_as_linkedin_post_fixed `{Pillow} (img : Image) :
  size img = (1200, 627) ->
  exists post,
    format_as_linkedin_post img = Py.Ok post
    /\ forall u v, 0 <= u < 1200 -> 0 <= v < 627 ->
                   getpixel post u v = getpixel img u v.
Proof.
  intros Hsz. injection Hsz as Hw Hh.
  unfold format_as_linkedin_post.
  rewrite resized_size_formula by lia. rewrite Hw, Hh.
  change (if 627 * 1200 <=? 1200 * 627
          then (1200, 1200 * 627 / 1200) else (627 * 1200 / 627, 627))
    with (1200, 627).
  cbn [mbind Py.result_bind]. unfold resize. rewrite Hw, Hh.
  cbn [Z.eqb Pos.eqb andb mbind Py.result_bind].
  eexists. split; [reflexivity|].
  intros u v Hu Hv. cbn [getpixel paste]. unfold linkedin_width, linkedin_height.
  change ((1200 - 1200) / 2) with 0. change ((627 - 627) / 2) with 0.
  rewrite !Z.sub_0_r. unfold in_bounds. cbn [width height Image_new].
  rewrite Hw, Hh.
  destruct (Z.leb_spec 0 u), (Z.ltb_spec u 1200), (Z.leb_spec 0 v), (Z.ltb_spec v 627);
    first [lia | reflexivity].
Qed.

(** X19. An image with no columns or no rows makes the formatter raise
    ZeroDivisionError (lines 252-253) before anything is allocated. *)
Theorem format_as_linkedin_post_degenerate `{Pillow} (img : Image) :
  width img = 0 \/ height img = 0 ->
  format_as_linkedin_post img
  = Py.Raise (Py.ZeroDivisionError "division by zero").
Proof.
  intros Hz. unfold format_as_linkedin_post, resized_size, size, Py.truediv.
  destruct (Z.eqb_spec (width img) 0) as [E|N]; [reflexivity|].
  destruct Hz as [E|E]; [contradiction|]. rewrite E. reflexivity.
Qed.

Lemma format_as_linkedin_post_fixed_witness :
  exists post,
    format_as_linkedin_post (H := Demo.box_pillow) Demo.photo = Py.Ok post
    /\ forall u v, 0 <= u < 1200 -> 0 <= v < 627 ->
                   getpixel post u v = getpixel Demo.photo u v.
Proof.
  apply (format_as_linkedin_post_fixed (H := Demo.box_pillow) Demo.photo).
  reflexivity.
Defined.

Lemma format_as_linkedin_post_degenerate_witness :
  format_as_linkedin_post (H := Demo.box_pillow) (Demo.two_tone 0 10 0)
  = Py.Raise (Py.ZeroDivisionError "division by zero").
Proof.
  apply (format_as_linkedin_post_degenerate (H := Demo.box_pillow)
           (Demo.two_tone 0 10 0)).
  left. reflexivity.
Defined.

(** ** Further properties of main *)

(** X20. A missing explicit base image is fatal: when --christmas-image
    names a path that does not exist, the run prints the error and exits
    with status 1, whatever the workspace holds and whatever the other
    arguments are. *)
Theorem main_missing_christmas_image `{Pillow} (os : OS) (args : Args)
        (p : string) :
  christmas_image args = Some p -> p <> EmptyString ->
  path_exists os p = false ->
  main os args
  = (["Searching for image files...";
      "ERROR: Christmas image not found at: " +:+ p], Exit 1).
Proof.
  intros Hp Hne Hex. unfold main. rewrite Hp. unfold truthy.
  apply String.eqb_neq in Hne. rewrite Hne, Hex. reflexivity.
Qed.

(** X21. With no --christmas-image and no base image found by the
    Locator, the run prints the usage text and exits with status 1, even
    when a valid --logo is given. *)
Theorem main_no_base_image `{Pillow} (os : OS) (args : Args) :
  truthy (christmas_image args) = false ->
  find_image_files os !! "christmas" = None ->
  (main os args).2 = Exit 1
  /\ exists printed, (main os args).1 = printed ++ usage.
Proof.
  intros Hc Hnone. unfold main.
  assert (Hstep : match christmas_image args with
                  | Some p =>
                      if truthy (Some p)
                      then if path_exists os p
                           then ([], Some (<["christmas":=p]> (find_image_files os)))
                           else (["ERROR: Christmas image not found at: " +:+ p], None)
                      else ([], Some (find_image_files os))
                  | None => ([], Some (find_image_files os))
                  end = (([] : list string), Some (find_image_files os))).
  { destruct (christmas_image args) as [p|]; [|reflexivity].
    rewrite Hc. reflexivity. }
  rewrite Hstep.
  destruct (logo args) as [q|]; [destruct (truthy (Some q)); [destruct (path_exists os q)|]|].
  - rewrite lookup_insert_ne by discriminate. rewrite Hnone. cbn.
    split; [reflexivity|]. exists ["Searching for image files..."]. reflexivity.
  - rewrite Hnone. cbn. split; [reflexivity|].
    eexists (_ :: _ :: _ :: []). reflexivity.
  - rewrite Hnone. cbn. split; [reflexivity|].
    exists ["Searching for image files..."]. reflexivity.
  - rewrite Hnone. cbn. split; [reflexivity|].
    exists ["Searching for image files..."]. reflexivity.
Qed.

Lemma compose_saved `{Pillow} os args files img pending out path post
      logo_info :
  compose os args files img pending = (out, Saved path post logo_info) ->
  path = output args /\ size post = (1200, 627) /\ mode post = "RGB".
Proof.
  unfold compose. destruct pending as [e|]; [discriminate|].
  destruct (remove_text_from_image img _) as [img1|e]; [|discriminate].
  destruct (if truthy (files !! "logo") then _ else _) as [[img2 li] out2].
  destruct (add_text_to_image _ _ _ _) as [img3|e]; [|discriminate].
  destruct (format_as_linkedin_post _) as [p|e] eqn:Ef; [|discriminate].
  destruct (save_error os (output args)); [discriminate|].
  intros [= _ <- <- _]. split; [reflexivity|].
  eapply format_as_linkedin_post_shape, Ef.
Qed.

(** X22. Whatever run saves a post saves it at the --output path, and
    the post is RGB and exactly 1200 x 627. *)
Theorem main_saved_post `{Pillow} (os : OS) (args : Args) (path : string)
        (post : Image) (logo_info : option bbox) :
  (main os args).2 = Saved path post logo_info ->
  path = output args /\ size post = (1200, 627) /\ mode post = "RGB".
Proof.
  unfold main.
  destruct (match christmas_image args with Some _ => _ | None => _ end)
    as [out1 [files|]]; [|discriminate].
  destruct (match logo args with Some _ => _ | None => _ end) as [out2 files2].
  destruct (negb (truthy (files2 !! "christmas"))); [discriminate|].
  destruct (open_base_image os _) as [[img pending]|e]; [|discriminate].
  cbn [snd]. intros Hs.
  destruct (compose os args files2 img pending) as [out o] eqn:Ec.
  cbn [snd] in Hs. subst o.
  eapply compose_saved, Ec.
Qed.

Lemma add_logo_to_image_size `{Pillow} os base_img logo_path position :
  size (add_logo_to_image os base_img logo_path position).1.1 = size base_img.
Proof.
  unfold add_logo_to_image.
  destruct (add_logo_try os base_img logo_path position) as [[img box]|e] eqn:E;
    cbn [fst snd]; [|reflexivity].
  destruct (add_logo_try_ok _ _ _ _ _ _ E) as (logo & _ & ->). reflexivity.
Qed.

Lemma format_as_linkedin_post_ok `{Pillow} (img : Image) :
  0 < width img -> 0 < height img ->
  exists post, format_as_linkedin_post img = Py.Ok post.
Proof.
  intros Hw Hh.
  destruct (resized_size_ok img Hw Hh) as (nw & nh & E & Hnw & Hnh).
  unfold format_as_linkedin_post. rewrite E. cbn [mbind Py.result_bind].
  unfold linkedin_width, linkedin_height in *.
  assert (R : exists r, resize img nw nh = Py.Ok r).
  { unfold resize. destruct (_ && _); [eauto|].
    destruct (Z.ltb_spec nw 1); [lia|].
    destruct (Z.ltb_spec nh 1); [lia|]. cbn. eauto. }
  destruct R as [r ->]. cbn [mbind Py.result_bind]. eauto.
Qed.

(** Lines 329-352 on a decoded base image of at least 1 x 4 pixels run
    up to the save: they end in a saved post, or in the error of the
    save, raised after the line "Formatting as LinkedIn post ..." . *)
Lemma compose_runs `{Pillow} os args files img :
  0 < width img -> 4 <= height img ->
  exists out post logo_info,
    last out = Some "Formatting as LinkedIn post (1200x627px)..."
    /\ compose os args files img None
       = match save_error os (output args) with
         | Some e => (out, Uncaught e)
         | None =>
             (out ++
              ["✓ Saved LinkedIn post to: " +:+ output args;
               "  Dimensions: " +:+ pretty (width post) +:+ "x"
                 +:+ pretty (height post) +:+ "px"],
              Saved (output args) post logo_info)
         end.
Proof.
  intros Hw Hh. unfold compose.
  destruct (remove_text_from_image_ok img "and happy newyear" Hw Hh)
    as (img1 & -> & Hsz1).
  set (step := if truthy (files !! "logo") then _ else _).
  assert (Hstep : size step.1.1 = size img).
  { subst step. destruct (truthy _); cbn [fst snd]; [|exact Hsz1].
    rewrite add_logo_to_image_size. exact Hsz1. }
  destruct step as [[img2 li] out2]. cbn [fst] in Hstep.
  destruct (add_text_to_image_size img2 message
              (if bool_decide (is_Some li) then "below_logo" else "center_bottom")
              li) as (img3 & -> & Hsz3).
  rewrite Hstep in Hsz3. injection Hsz3 as Hw3 Hh3.
  destruct (format_as_linkedin_post_ok img3) as [post ->]; [lia|lia|].
  eexists _, post, li. split; [|destruct (save_error os (output args)); [reflexivity|]].
  - rewrite !app_assoc. apply last_snoc.
  - rewrite <- !app_assoc. reflexivity.
Qed.

(** What the [try] block of lines 319-324 yields. *)
Lemma open_base_image_ok os path img pending :
  open_base_image os path = Py.Ok (img, pending) ->
  exists img0,
    image_open os path = Py.Ok img0
    /\ size img = size img0
    /\ (pending = None \/ pending = decode_error os path).
Proof.
  unfold open_base_image, load.
  destruct (image_open os path) as [img0|e]; cbn [mbind Py.result_bind];
    [|discriminate].
  destruct (bool_decide _).
  - destruct (decode_error os path); cbn [mbind Py.result_bind];
      [discriminate|].
    intros [= <- <-]. exists img0. split; [reflexivity|].
    split; [reflexivity|left; reflexivity].
  - intros [= <- <-]. exists img0. split; [reflexivity|].
    split; [reflexivity|right; reflexivity].
Qed.

(** X23. With files that decode and an output path that can be written,
    no stage stops the run with an exception: if every file that
    [Image.open] accepts decodes to an image of at least one column and
    four rows, and [save] to the --output path succeeds, [main] exits
    with status 1 or saves the post.  (Pillow's text measurement and
    drawing are taken as returning.) *)
Theorem main_no_uncaught_exception `{Pillow} (os : OS) (args : Args) :
  (forall p img, image_open os p = Py.Ok img ->
                 decode_error os p = None
                 /\ 0 < width img /\ 4 <= height img) ->
  save_error os (output args) = None ->
  (main os args).2 = Exit 1
  \/ exists post logo_info,
       (main os args).2 = Saved (output args) post logo_info.
Proof.
  intros Hdecoded Hsave. unfold main.
  destruct (match christmas_image args with Some _ => _ | None => _ end)
    as [out1 [files|]]; [|left; reflexivity].
  destruct (match logo args with Some _ => _ | None => _ end) as [out2 files2].
  destruct (negb (truthy (files2 !! "christmas"))); [left; reflexivity|].
  destruct (open_base_image os _) as [[img pending]|e] eqn:Eo;
    [|left; reflexivity].
  right. cbn [snd].
  destruct (open_base_image_ok _ _ _ _ Eo) as (img0 & Ho & Hsz & Hp).
  destruct (Hdecoded _ _ Ho) as (Hd & Hw & Hh).
  assert (pending = None) as -> by (destruct Hp as [->| ->]; [reflexivity|exact Hd]).
  injection Hsz as Hw0 Hh0.
  destruct (compose_runs os args files2 img) as (out & post & li & _ & ->);
    [lia|lia|].
  rewrite Hsave. cbn [snd]. eauto.
Qed.



(** X27. The save is outside every [try]: when every stage before it
    succeeds and [save] to the --output path raises, the run dies of
    that exception right after the line
    "Formatting as LinkedIn post (1200x627px)...", and the line
    "Saved LinkedIn post to: ..." is never printed. *)
Theorem main_save_failure `{Pillow} (os : OS) (args : Args) (e : Py.exn) :
  (forall p img, image_open os p = Py.Ok img ->
                 decode_error os p = None
                 /\ 0 < width img /\ 4 <= height img) ->
  save_error os (output args) = Some e ->
  (main os args).2 = Exit 1
  \/ ((main os args).2 = Uncaught e
      /\ last (main os args).1
         = Some "Formatting as LinkedIn post (1200x627px)...").
Proof.
  intros Hdecoded Hsave. unfold main.
  destruct (match christmas_image args with Some _ => _ | None => _ end)
    as [out1 [files|]]; [|left; reflexivity].
  destruct (match logo args with Some _ => _ | None => _ end) as [out2 files2].
  destruct (negb (truthy (files2 !! "christmas"))); [left; reflexivity|].
  destruct (open_base_image os _) as [[img pending]|e0] eqn:Eo;
    [|left; reflexivity].
  right. cbn [snd fst].
  destruct (open_base_image_ok _ _ _ _ Eo) as (img0 & Ho & Hsz & Hp).
  destruct (Hdecoded _ _ Ho) as (Hd & Hw & Hh).
  assert (pending = None) as -> by (destruct Hp as [->| ->]; [reflexivity|exact Hd]).
  injection Hsz as Hw0 Hh0.
  destruct (compose_runs os args files2 img) as (out & post & li & Hlast & ->);
    [lia|lia|].
  rewrite Hsave. cbn [snd fst]. split; [reflexivity|].
  destruct out as [|l out] using rev_ind; [discriminate|].
  rewrite last_snoc in Hlast. injection Hlast as ->.
  rewrite !app_assoc. apply last_snoc.
Qed.

(** X25. Explicit paths take precedence: when --christmas-image and
    --logo both name existing files, these are the files the run reports
    and uses, without any warning, whatever the Locator found. *)
Theorem main_overrides_win `{Pillow} (os : OS) (args : Args) (p q : string) :
  christmas_image args = Some p -> p <> EmptyString -> path_exists os p = true ->
  logo args = Some q -> q <> EmptyString -> path_exists os q = true ->
  exists rest,
    (main os args).1
    = ["Searching for image files...";
       "Found Christmas image: " +:+ p;
       "Found logo: " +:+ q] ++ rest.
Proof.
  intros Hp Hpe Hpx Hq Hqe Hqx. unfold main. rewrite Hp, Hq.
  assert (Htp : truthy (Some p) = true).
  { unfold truthy. apply String.eqb_neq in Hpe. rewrite Hpe. reflexivity. }
  assert (Htq : truthy (Some q) = true).
  { unfold truthy. apply String.eqb_neq in Hqe. rewrite Hqe. reflexivity. }
  rewrite Htp, Htq, Hpx, Hqx.
  rewrite lookup_insert_ne by discriminate. rewrite !lookup_insert_eq.
  rewrite Htp, Htq. cbn [negb default from_option id app].
  destruct (open_base_image os p) as [[img pending]|e];
    cbn [fst snd app]; eexists; reflexivity.
Qed.

Lemma main_missing_christmas_image_witness :
  main (H := Demo.box_pillow) Demo.branded_os
       (mkArgs (Some "/missing.jpg") None "/workspace/out.png")
  = (["Searching for image files...";
      "ERROR: Christmas image not found at: /missing.jpg"], Exit 1).
Proof.
  apply (main_missing_christmas_image (H := Demo.box_pillow) Demo.branded_os
           (mkArgs (Some "/missing.jpg") None "/workspace/out.png")
           "/missing.jpg");
    [reflexivity | discriminate | reflexivity].
Defined.

Lemma main_no_base_image_witness :
  (main (H := Demo.box_pillow) Samples.bare_os
        (mkArgs None None "/workspace/out.png")).2 = Exit 1
  /\ exists printed,
       (main (H := Demo.box_pillow) Samples.bare_os
             (mkArgs None None "/workspace/out.png")).1 = printed ++ usage.
Proof.
  apply (main_no_base_image (H := Demo.box_pillow) Samples.bare_os
           (mkArgs None None "/workspace/out.png")); reflexivity.
Defined.

Lemma main_saved_post_witness :
  exists path post logo_info,
    (main (H := Demo.box_pillow) Demo.branded_os
          (mkArgs None None "/workspace/out.png")).2
    = Saved path post logo_info
    /\ path = "/workspace/out.png"
    /\ size post = (1200, 627) /\ mode post = "RGB".
Proof.
  assert (S : saved_summary
                (main (H := Demo.box_pillow) Demo.branded_os
                      (mkArgs None None "/workspace/out.png")).2
              = Some ("/workspace/out.png", (1200, 627), Some (40, 30, 30, 30)))
    by (vm_compute; reflexivity).
  destruct ((main (H := Demo.box_pillow) Demo.branded_os
                  (mkArgs None None "/workspace/out.png")).2)
    as [code|e|path post logo_info] eqn:E; try discriminate S.
  exists path, post, logo_info. split; [reflexivity|].
  apply (main_saved_post (H := Demo.box_pillow) Demo.branded_os
           (mkArgs None None "/workspace/out.png") path post logo_info E).
Defined.

Lemma main_no_uncaught_exception_witness :
  (main (H := Demo.box_pillow) Demo.branded_os
        (mkArgs None None "/workspace/out.png")).2 = Exit 1
  \/ exists post logo_info,
       (main (H := Demo.box_pillow) Demo.branded_os
             (mkArgs None None "/workspace/out.png")).2
       = Saved "/workspace/out.png" post logo_info.
Proof.
  apply (main_no_uncaught_exception (H := Demo.box_pillow) Demo.branded_os
           (mkArgs None None "/workspace/out.png")); [|reflexivity].
  intros p img. unfold Demo.branded_os, Demo.table_os.
  cbn [image_open decode_error List.find fst snd].
  destruct (String.eqb "/workspace/christmas.png" p);
    [intros [= <-]; cbn; split; [reflexivity|lia]|].
  destruct (String.eqb "/workspace/logo.png" p);
    [intros [= <-]; cbn; split; [reflexivity|lia]|].
  discriminate.
Defined.



Lemma main_save_failure_witness :
  (main (H := Demo.box_pillow) Samples.readonly_os
        (mkArgs None None "/workspace/out.png")).2 = Exit 1
  \/ ((main (H := Demo.box_pillow) Samples.readonly_os
            (mkArgs None None "/workspace/out.png")).2
      = Uncaught (Py.OSError "No such file or directory")
      /\ last (main (H := Demo.box_pillow) Samples.readonly_os
                    (mkArgs None None "/workspace/out.png")).1
         = Some "Formatting as LinkedIn post (1200x627px)...").
Proof.
  apply (main_save_failure (H := Demo.box_pillow) Samples.readonly_os
           (mkArgs None None "/workspace/out.png")); [|reflexivity].
  intros p img. unfold Samples.readonly_os, Demo.branded_os, Demo.table_os.
  cbn [image_open decode_error List.find fst snd].
  destruct (String.eqb "/workspace/christmas.png" p);
    [intros [= <-]; cbn; split; [reflexivity|lia]|].
  destruct (String.eqb "/workspace/logo.png" p);
    [intros [= <-]; cbn; split; [reflexivity|lia]|].
  discriminate.
Defined.

Example main_save_failure_sample :
  (main (H := Demo.box_pillow) Samples.readonly_os
        (mkArgs None None "/workspace/out.png")).2
  = Uncaught (Py.OSError "No such file or directory").
Proof. vm_compute. reflexivity. Qed.

Lemma main_overrides_win_witness :
  exists rest,
    (main (H := Demo.box_pillow) Demo.branded_os
          (mkArgs (Some "/workspace/logo.png") (Some "/workspace/christmas.png")
                  "/workspace/out.png")).1
    = ["Searching for image files...";
       "Found Christmas image: /workspace/logo.png";
       "Found logo: /workspace/christmas.png"] ++ rest.
Proof.
  apply (main_overrides_win (H := Demo.box_pillow) Demo.branded_os
           (mkArgs (Some "/workspace/logo.png") (Some "/workspace/christmas.png")
                   "/workspace/out.png")
           "/workspace/logo.png" "/workspace/christmas.png");
    first [reflexivity | discriminate].
Defined.
